(** * incident-jira-webhook: the field-mapping and value-resolution pipeline

    A shallow embedding of [incident-jira-webhook.go].  Go strings are byte
    strings and are modelled by [string]; Go's [error] results by a sum type;
    the two upstream REST services and the process log by an explicit trace
    of events threaded through a small state monad. *)

From Stdlib Require Import ZArith NArith Ascii String List Lia.
From stdpp Require Import base option list strings gmap.

Set Default Proof Using "Type".

(** ** Results of fallible calls *)

Inductive result (A E : Type) : Type :=
| Ok (a : A)
| Err (e : E).
Arguments Ok {A E} a.
Arguments Err {A E} e.

Definition is_ok {A E} (r : result A E) : bool :=
  match r with Ok _ => true | Err _ => false end.

(** Every [fmt.Errorf] of the program, one constructor per message.  A
    wrapped cause ([%w]) is kept as its text. *)
Inductive error : Type :=
| ErrCreateRequest (cause : string)
| ErrFetchCatalogEntry (cause : string)
| ErrAPIStatus (code : Z)
| ErrDecodeResponse (cause : string)
| ErrNoObjectKey (catalogEntryID : string)
| ErrEmptyObjectKey
| ErrNoNumericID (objectKey : string)
| ErrUpdateJiraField (cause : string)
| ErrJiraStatus (code : Z)
| ErrNoJiraIssue.

(** ** Byte-level string helpers *)

Module Bytes.

Definition code (c : ascii) : N := N_of_ascii c.

(** The class [\d] of Go's [regexp], and the digits [strconv] accepts in
    base 10: the ten ASCII digits only. *)
Definition is_digit (c : ascii) : bool :=
  (48 <=? code c)%N && (code c <=? 57)%N.

Definition is_upper (c : ascii) : bool :=
  (65 <=? code c)%N && (code c <=? 90)%N.

(** [c < utf8.RuneSelf] *)
Definition is_ascii (c : ascii) : bool := (code c <? 128)%N.

Definition lower (c : ascii) : ascii :=
  if is_upper c then ascii_of_N (code c + 32) else c.

Fixpoint all (p : ascii -> bool) (s : string) : bool :=
  match s with
  | EmptyString => true
  | String c r => p c && all p r
  end.

Fixpoint map (f : ascii -> ascii) (s : string) : string :=
  match s with
  | EmptyString => EmptyString
  | String c r => String (f c) (map f r)
  end.

(** One or more decimal digits and nothing else. *)
Definition digits1 (s : string) : bool :=
  match s with
  | EmptyString => false
  | String _ _ => all is_digit s
  end.

(** The value of a run of decimal digits, most significant first. *)
Fixpoint decimal_from (acc : Z) (s : string) : Z :=
  match s with
  | EmptyString => acc
  | String c r => decimal_from (10 * acc + (Z.of_N (code c) - 48)) r
  end.

Definition decimal (s : string) : Z := decimal_from 0 s.

End Bytes.

(** ** The Go library functions the extractor calls *)

Module strconv.

Inductive NumError : Type := ErrSyntax | ErrRange.

(** [int] is 64 bits wide on the platforms the image is built for. *)
Definition intSize : Z := 64.

(** [strconv.Atoi]: an optional sign, then one or more decimal digits
    (base 10 takes no underscores and no prefixes), the value within the
    range of [int]. *)
Definition Atoi (s : string) : result Z NumError :=
  match s with
  | EmptyString => Err ErrSyntax
  | String c r =>
      let neg := bool_decide (c = "-"%char) in
      let body := if bool_decide (c = "-"%char) || bool_decide (c = "+"%char)
                  then r else s in
      if Bytes.digits1 body then
        let n := Bytes.decimal body in
        let cutoff := (2 ^ (intSize - 1))%Z in
        if neg then (if (n <=? cutoff)%Z then Ok (- n)%Z else Err ErrRange)
        else (if (n <? cutoff)%Z then Ok n else Err ErrRange)
      else Err ErrSyntax
  end.

End strconv.

Module regexp.

(** [regexp.MustCompile(`-(\d+)$`).FindStringSubmatch(s)], reduced to its
    first group: the leftmost position holding a hyphen that is followed
    by one or more digits up to the end of the text.  [None] stands for
    the nil slice of a failed match. *)
Fixpoint hyphen_digits_end (s : string) : option string :=
  match s with
  | EmptyString => None
  | String c r =>
      if bool_decide (c = "-"%char) && Bytes.digits1 r then Some r
      else hyphen_digits_end r
  end.

End regexp.

(** ** Configuration and wire structures *)

Record Config : Type := {
  JiraBaseURL : string;
  JiraUsername : string;
  JiraAPIToken : string;
  IncidentAPIToken : string;
  WebhookSecret : string;
  Port : string;
  JiraWorkspaceID : string;
  ImpactedComponentFieldName : string;
  ImpactedComponentJiraFieldID : string;
  ResponsibleComponentFieldName : string;
  ResponsibleComponentJiraFieldID : string
}.

Record JiraComponentValue : Type := {
  ID : string;
  ObjectID : string
}.

(** ** Reference extractor and value formatter *)

(** [extractJiraObjectID] *)
Definition extractJiraObjectID (objectKey : string) : result string error :=
  if bool_decide (objectKey = EmptyString) then Err ErrEmptyObjectKey
  else
    match regexp.hyphen_digits_end objectKey with
    | Some digits => Ok digits
    | None =>
        match strconv.Atoi objectKey with
        | Ok _ => Ok objectKey
        | Err _ => Err (ErrNoNumericID objectKey)
        end
    end.

(** [formatJiraComponentValue]; the second argument is not used by the
    source either. *)
Definition formatJiraComponentValue (config : Config)
    (objectID catalogEntryID : string) : JiraComponentValue :=
  {| ID := JiraWorkspaceID config +:+ ":" +:+ objectID;
     ObjectID := objectID |}.

Record FieldMapping : Type := {
  IncidentFieldName : string;
  JiraFieldID : string
}.

Record ExternalIssueReference : Type := {
  Provider : string;
  IssueName : string;
  IssuePermalink : string
}.

Record CustomField : Type := {
  CustomField_ID : string;
  CustomField_Name : string;
  CustomField_Description : string;
  CustomField_FieldType : string
}.

Record CatalogEntry : Type := {
  CatalogEntry_ID : string;
  CatalogEntry_Name : string;
  CatalogEntry_ExternalID : string
}.

(** [ValueCatalogEntry] is a pointer in the source: [None] is nil. *)
Record Value : Type := {
  ValueCatalogEntry : option CatalogEntry
}.

Record CustomFieldEntry : Type := {
  CustomFieldEntry_CustomField : CustomField;
  CustomFieldEntry_Values : list Value
}.

(** The anonymous struct shared by both sub-objects of [IncidentData]. *)
Record Incident : Type := {
  Incident_ID : string;
  Incident_Name : string;
  Incident_ExternalIssueReference : ExternalIssueReference;
  Incident_CustomFieldEntries : list CustomFieldEntry
}.

Record IncidentData : Type := {
  IncidentData_Incident : Incident;
  IncidentData_PublicIncidentUpdatedV2 : Incident;
  EventType : string
}.

Record AttributeValue : Type := {
  AttributeValue_Value_Literal : string
}.

Record SchemaAttribute : Type := {
  SchemaAttribute_ID : string;
  SchemaAttribute_Name : string
}.

Record CatalogResponse : Type := {
  CatalogResponse_ID : string;
  CatalogResponse_Name : string;
  CatalogResponse_ExternalID : string;
  CatalogResponse_AttributeValues : gmap string AttributeValue;
  CatalogResponse_Attributes : list SchemaAttribute
}.

Record JiraUpdateRequest : Type := {
  Fields : gmap string (list JiraComponentValue)
}.

(** Zero values, as Go gives them for a missing map key or an empty struct. *)
#[global] Instance FieldMapping_inhabited : Inhabited FieldMapping :=
  populate {| IncidentFieldName := EmptyString; JiraFieldID := EmptyString |}.

#[global] Instance JiraComponentValue_inhabited : Inhabited JiraComponentValue :=
  populate {| ID := EmptyString; ObjectID := EmptyString |}.

(** ** Outbound HTTP, the log, and the trace of one run *)

Inductive Authorization : Type :=
| Bearer (token : string)
| BasicAuth (username password : string).

Record Request : Type := {
  Method : string;
  URL : string;
  Auth : Authorization;
  ContentType : string;
  Payload : option JiraUpdateRequest
}.

Record Response : Type := {
  StatusCode : Z;
  Body : string
}.

(** One constructor per [log.Printf] of the source, with its arguments. *)
Inductive LogMsg : Type :=
| LogFoundObjectKey (objectKey catalogEntryID : string)
| LogNoObjectKey (catalogEntryID : string)
| LogUpdatingJira (jiraIssueKey : string) (payload : JiraUpdateRequest)
| LogJiraErrorResponse (body : string)
| LogUpdated (fieldID jiraIssueKey : string) (status : Z)
| LogFailedObjectKey (catalogEntryID : string) (err : error)
| LogFailedExtract (objectKey : string) (err : error)
| LogMapped (name : string) (jiraValue : JiraComponentValue)
| LogMultipleFailed (first : JiraComponentValue)
| LogProcessingIssue (jiraIssueKey : string)
| LogProcessingImpacted
| LogFailedImpacted (err : error)
| LogProcessingResponsible
| LogFailedResponsible (err : error)
| LogFailedReadBody (cause : string)
| LogWebhookReceived (remoteAddr : string)
| LogFailedDecodePayload (cause : string)
| LogProcessingEventType (eventType : string)
| LogIgnoringEventType (eventType : string)
| LogFailedProcess (err : error)
| LogProcessed.

(** What one run does to the outside, oldest first: lines written to the
    log and requests handed to [client.Do]. *)
Inductive Event : Type :=
| Logged (m : LogMsg)
| Sent (req : Request).

Definition is_sent (e : Event) : bool :=
  match e with Sent _ => true | Logged _ => false end.

Definition is_put (e : Event) : bool :=
  match e with
  | Sent req => bool_decide (Method req = "PUT")
  | Logged _ => false
  end.

Definition is_get (e : Event) : bool :=
  match e with
  | Sent req => bool_decide (Method req = "GET")
  | Logged _ => false
  end.

(** An entry into [updateJiraCustomField] shows as its first log line. *)
Definition is_update_attempt (e : Event) : bool :=
  match e with Logged (LogUpdatingJira _ _) => true | _ => false end.

(** The requests sent upstream during a run. *)
Definition upstream_calls (t : list Event) : list Event := filter is_sent t.

(** Everything outside the program: the two REST services, which may answer
    a request by what happened before it, and the Go library functions whose
    tables are not part of the repository. *)
Record Env : Type := {
  (** [strings.Map(unicode.ToLower, s)], the path [strings.ToLower] takes
      for a string with a byte outside ASCII *)
  unicode_ToLower : string -> string;
  (** the error of [http.NewRequest method url], if any *)
  NewRequest_error : string -> string -> option string;
  (** [client.Do]: a transport error or the response *)
  client_Do : list Event -> Request -> result Response string;
  (** [json.NewDecoder(resp.Body).Decode(&catalogResp)] *)
  Decode_CatalogResponse : string -> result CatalogResponse string;
  (** [json.Unmarshal(body, &payload)] *)
  Unmarshal_IncidentData : string -> result IncidentData string
}.

(** ** The monad of a run: the trace is threaded through every call *)

Definition M (A : Type) : Type := list Event -> A * list Event.

#[global] Instance M_ret : MRet M := fun A a t => (a, t).

#[global] Instance M_bind : MBind M :=
  fun A B k m t => let '(a, t') := m t in k a t'.

Definition log (m : LogMsg) : M unit := fun t => (tt, t ++ [Logged m]).

Definition run {A} (m : M A) (t : list Event) : A * list Event := m t.
Arguments run : simpl never.

(** ** The program *)

Section Sync.

Context (env : Env) (config : Config).

(** [strings.ToLower]: a string of ASCII bytes has its upper-case letters
    mapped byte by byte; any other string goes through the Unicode tables. *)
Definition strings_ToLower (s : string) : string :=
  if Bytes.all Bytes.is_ascii s then Bytes.map Bytes.lower s
  else unicode_ToLower env s.

(** [client.Do(req)]: the request leaves, and the answer is the service's. *)
Definition Do (req : Request) : M (result Response string) :=
  fun t => (client_Do env t req, t ++ [Sent req]).

(** [getFieldMappings] *)
Definition getFieldMappings : gmap string FieldMapping :=
  {[ "impacted_components" :=
       {| IncidentFieldName := ImpactedComponentFieldName config;
          JiraFieldID := ImpactedComponentJiraFieldID config |};
     "responsible_components" :=
       {| IncidentFieldName := ResponsibleComponentFieldName config;
          JiraFieldID := ResponsibleComponentJiraFieldID config |} ]}.

(** The loop of [getCatalogEntryObjectKey] over the schema attributes:
    [objectKeyAttrID] starts as the empty string and takes the id of the
    first attribute whose lowered name is "object key". *)
Fixpoint objectKeyAttrID (attributes : list SchemaAttribute) : string :=
  match attributes with
  | [] => EmptyString
  | attr :: rest =>
      if bool_decide (strings_ToLower (SchemaAttribute_Name attr) = "object key")
      then SchemaAttribute_ID attr
      else objectKeyAttrID rest
  end.

(** [getCatalogEntryObjectKey] *)
Definition getCatalogEntryObjectKey (catalogEntryID : string)
    : M (result string error) :=
  let url := "https://api.incident.io/v2/catalog_entries/" +:+ catalogEntryID in
  match NewRequest_error env "GET" url with
  | Some err => mret (Err (ErrCreateRequest err))
  | None =>
      let req := {| Method := "GET"; URL := url;
                    Auth := Bearer (IncidentAPIToken config);
                    ContentType := "application/json";
                    Payload := None |} in
      resp ← Do req;
      match resp with
      | Err err => mret (Err (ErrFetchCatalogEntry err))
      | Ok resp =>
          if bool_decide (StatusCode resp ≠ 200%Z)
          then mret (Err (ErrAPIStatus (StatusCode resp)))
          else
            match Decode_CatalogResponse env (Body resp) with
            | Err err => mret (Err (ErrDecodeResponse err))
            | Ok catalogResp =>
                let attrID :=
                  objectKeyAttrID (CatalogResponse_Attributes catalogResp) in
                let found :=
                  if bool_decide (attrID ≠ EmptyString)
                  then CatalogResponse_AttributeValues catalogResp !! attrID
                  else None in
                match found with
                | Some attrValue =>
                    let objectKey := AttributeValue_Value_Literal attrValue in
                    log (LogFoundObjectKey objectKey catalogEntryID);;
                    mret (Ok objectKey)
                | None =>
                    log (LogNoObjectKey catalogEntryID);;
                    mret (Err (ErrNoObjectKey catalogEntryID))
                end
            end
      end
  end.

(** [updateJiraCustomField].  [json.Marshal] cannot fail on a payload of
    strings, so its error branch is not reachable and is left out. *)
Definition updateJiraCustomField (jiraIssueKey fieldID : string)
    (values : list JiraComponentValue) : M (result unit error) :=
  let url := JiraBaseURL config +:+ "/rest/api/3/issue/" +:+ jiraIssueKey in
  let payload := {| Fields := {[ fieldID := values ]} |} in
  log (LogUpdatingJira jiraIssueKey payload);;
  match NewRequest_error env "PUT" url with
  | Some err => mret (Err (ErrCreateRequest err))
  | None =>
      let req := {| Method := "PUT"; URL := url;
                    Auth := BasicAuth (JiraUsername config) (JiraAPIToken config);
                    ContentType := "application/json";
                    Payload := Some payload |} in
      resp ← Do req;
      match resp with
      | Err err => mret (Err (ErrUpdateJiraField err))
      | Ok resp =>
          if bool_decide (StatusCode resp ≠ 204%Z)
             && bool_decide (StatusCode resp ≠ 200%Z)
             && bool_decide (StatusCode resp ≠ 204%Z)
          then
            log (LogJiraErrorResponse (Body resp));;
            mret (Err (ErrJiraStatus (StatusCode resp)))
          else
            log (LogUpdated fieldID jiraIssueKey (StatusCode resp));;
            mret (Ok tt)
      end
  end.

(** [processComponentField], first loop (source lines 283 to 314): the
    values of the entry in order, [jiraValues] growing by [append]. *)
Fixpoint processComponentField_resolve (values : list Value)
    (jiraValues : list JiraComponentValue) : M (list JiraComponentValue) :=
  match values with
  | [] => mret jiraValues
  | value :: rest =>
      match ValueCatalogEntry value with
      | None => processComponentField_resolve rest jiraValues
      | Some catalogEntry =>
          if bool_decide (CatalogEntry_ID catalogEntry = EmptyString)
          then processComponentField_resolve rest jiraValues
          else
            objectKey ← getCatalogEntryObjectKey (CatalogEntry_ID catalogEntry);
            match objectKey with
            | Err err =>
                log (LogFailedObjectKey (CatalogEntry_ID catalogEntry) err);;
                processComponentField_resolve rest jiraValues
            | Ok objectKey =>
                match extractJiraObjectID objectKey with
                | Err err =>
                    log (LogFailedExtract objectKey err);;
                    processComponentField_resolve rest jiraValues
                | Ok objectID =>
                    let jiraValue :=
                      formatJiraComponentValue config objectID
                        (CatalogEntry_ID catalogEntry) in
                    log (LogMapped (CatalogEntry_Name catalogEntry) jiraValue);;
                    processComponentField_resolve rest (jiraValues ++ [jiraValue])
                end
            end
      end
  end.

(** [processComponentField], the write (source lines 316 to 329). *)
Definition processComponentField_update (jiraIssueKey : string)
    (fieldMapping : FieldMapping) (jiraValues : list JiraComponentValue)
    : M (result unit error) :=
  if bool_decide (0 < length jiraValues) then
    err ← updateJiraCustomField jiraIssueKey (JiraFieldID fieldMapping) jiraValues;
    if negb (is_ok err) && bool_decide (1 < length jiraValues) then
      log (LogMultipleFailed (jiraValues !!! 0));;
      updateJiraCustomField jiraIssueKey (JiraFieldID fieldMapping)
        [jiraValues !!! 0]
    else mret err
  else mret (Ok tt).

(** [processComponentField] *)
Definition processComponentField (customFieldEntry : CustomFieldEntry)
    (jiraIssueKey : string) (fieldMapping : FieldMapping)
    : M (result unit error) :=
  jiraValues ←
    processComponentField_resolve (CustomFieldEntry_Values customFieldEntry) [];
  processComponentField_update jiraIssueKey fieldMapping jiraValues.

(** One turn of the loop of [processIncidentUpdate] over the custom-field
    entries: the two name checks, in the order of the source.  An [Err] is
    the early [return err]. *)
Definition processFieldEntry (jiraIssueKey : string)
    (fieldEntry : CustomFieldEntry) : M (result unit error) :=
  let fieldMappings := getFieldMappings in
  let fieldName := CustomField_Name (CustomFieldEntry_CustomField fieldEntry) in
  impacted ←
    (if bool_decide
          (fieldName = IncidentFieldName (fieldMappings !!! "impacted_components"))
     then
       log LogProcessingImpacted;;
       r ← processComponentField fieldEntry jiraIssueKey
             (fieldMappings !!! "impacted_components");
       match r with
       | Err err => log (LogFailedImpacted err);; mret (Err err)
       | Ok _ => mret (Ok tt)
       end
     else mret (Ok tt));
  match impacted with
  | Err err => mret (Err err)
  | Ok _ =>
      if bool_decide
           (fieldName
            = IncidentFieldName (fieldMappings !!! "responsible_components"))
      then
        log LogProcessingResponsible;;
        r ← processComponentField fieldEntry jiraIssueKey
              (fieldMappings !!! "responsible_components");
        match r with
        | Err err => log (LogFailedResponsible err);; mret (Err err)
        | Ok _ => mret (Ok tt)
        end
      else mret (Ok tt)
  end.

(** The loop itself: entries in order, left at the first error. *)
Fixpoint processFieldEntries (jiraIssueKey : string)
    (entries : list CustomFieldEntry) : M (result unit error) :=
  match entries with
  | [] => mret (Ok tt)
  | fieldEntry :: rest =>
      r ← processFieldEntry jiraIssueKey fieldEntry;
      match r with
      | Err err => mret (Err err)
      | Ok _ => processFieldEntries jiraIssueKey rest
      end
  end.

(** The sub-object [processIncidentUpdate] works on. *)
Definition selectIncident (incidentData : IncidentData) : Incident :=
  if bool_decide (EventType incidentData = "public_incident.incident_updated_v2")
  then IncidentData_PublicIncidentUpdatedV2 incidentData
  else IncidentData_Incident incidentData.

(** [processIncidentUpdate] *)
Definition processIncidentUpdate (incidentData : IncidentData)
    : M (result unit error) :=
  let incident := selectIncident incidentData in
  let jiraIssueKey := IssueName (Incident_ExternalIssueReference incident) in
  if bool_decide (jiraIssueKey = EmptyString) then mret (Err ErrNoJiraIssue)
  else
    log (LogProcessingIssue jiraIssueKey);;
    processFieldEntries jiraIssueKey (Incident_CustomFieldEntries incident).

(** The inbound request, as far as the handler reads it; [ReadAll] is the
    outcome of [io.ReadAll(r.Body)]. *)
Record WebhookRequest : Type := {
  Request_Method : string;
  Request_ReadAll : result string string;
  Request_RemoteAddr : string
}.

Inductive Written : Type :=
| PlainText (message : string)
| StatusJSON (status : string).

(** What the handler leaves in the [http.ResponseWriter]. *)
Record WebhookResponse : Type := {
  Response_Code : Z;
  Response_Body : Written
}.

(** [http.Error(w, message, code)] *)
Definition http_Error (message : string) (code : Z) : WebhookResponse :=
  {| Response_Code := code; Response_Body := PlainText message |}.

(** [w.WriteHeader(http.StatusOK)] and the encoded one-entry map. *)
Definition write_status (status : string) : WebhookResponse :=
  {| Response_Code := 200; Response_Body := StatusJSON status |}.

(** [webhookHandler] *)
Definition webhookHandler (r : WebhookRequest) : M WebhookResponse :=
  if bool_decide (Request_Method r ≠ "POST")
  then mret (http_Error "Method not allowed" 405)
  else
    match Request_ReadAll r with
    | Err err =>
        log (LogFailedReadBody err);;
        mret (http_Error "Failed to read body" 400)
    | Ok body =>
        log (LogWebhookReceived (Request_RemoteAddr r));;
        match Unmarshal_IncidentData env body with
        | Err err =>
            log (LogFailedDecodePayload err);;
            mret (http_Error "Invalid JSON payload" 400)
        | Ok payload =>
            log (LogProcessingEventType (EventType payload));;
            if bool_decide (EventType payload ≠ "incident.custom_field_updated")
               && bool_decide
                    (EventType payload ≠ "public_incident.incident_updated_v2")
            then
              log (LogIgnoringEventType (EventType payload));;
              mret (write_status "ignored")
            else
              res ← processIncidentUpdate payload;
              match res with
              | Err err =>
                  log (LogFailedProcess err);;
                  mret (http_Error "Processing failed" 500)
              | Ok _ =>
                  log LogProcessed;;
                  mret (write_status "success")
              end
        end
    end.

End Sync.

(** ** Observations on a trace *)

(** The request a lookup sends. *)
Definition catalog_request (config : Config) (catalogEntryID : string)
    : Request :=
  {| Method := "GET";
     URL := "https://api.incident.io/v2/catalog_entries/" +:+ catalogEntryID;
     Auth := Bearer (IncidentAPIToken config);
     ContentType := "application/json";
     Payload := None |}.

Definition count (p : Event -> bool) (t : list Event) : nat :=
  length (List.filter p t).

(** The request a write sends. *)
Definition jira_request (config : Config) (jiraIssueKey fieldID : string)
    (values : list JiraComponentValue) : Request :=
  {| Method := "PUT";
     URL := JiraBaseURL config +:+ "/rest/api/3/issue/" +:+ jiraIssueKey;
     Auth := BasicAuth (JiraUsername config) (JiraAPIToken config);
     ContentType := "application/json";
     Payload := Some {| Fields := {[ fieldID := values ]} |} |}.

(** A computation only ever appends to the trace, and what it appends
    satisfies [P]. *)
Definition appends {A} (P : Event -> Prop) (m : M A) : Prop :=
  forall t, exists added, snd (run m t) = t ++ added /\ Forall P added.

(** Events that are not part of a write to the ticketing system. *)
Definition not_a_write (e : Event) : Prop :=
  is_put e = false /\ is_update_attempt e = false.

(** A value the first loop of [processComponentField] passes over: it has
    no catalog entry, or one with an empty id. *)
Definition not_catalog_backed (value : Value) : bool :=
  match ValueCatalogEntry value with
  | None => true
  | Some catalogEntry => bool_decide (CatalogEntry_ID catalogEntry = EmptyString)
  end.


(** ** The extraction policy in the words of the specification *)

Module Policy.

(** The string ends in a hyphen followed by one or more digits. *)
Definition ends_in_hyphen_digits (s : string) : Prop :=
  exists p d, s = p +:+ "-" +:+ d /\ Bytes.digits1 d = true.

(** The entire string is itself numeric. *)
Definition numeric (s : string) : Prop := Bytes.digits1 s = true.

(** The text of an [int]: digits, with or without a leading plus sign,
    whose value is at most the largest [int]. *)
Definition int_text (s : string) : Prop :=
  exists body,
    Bytes.digits1 body = true
    /\ (s = body \/ s = "+" +:+ body)
    /\ (Bytes.decimal body < 2 ^ 63)%Z.

End Policy.

(** ** The catalog lookup in the words of the specification *)

Module Lookup.

Section WithEnv.

Context (env : Env).

(** The name of the attribute case-insensitively equals "object key". *)
Definition names_object_key (attr : SchemaAttribute) : Prop :=
  strings_ToLower env (SchemaAttribute_Name attr) = "object key".

(** [attr] is the first attribute of the schema so named. *)
Definition governs (attrs : list SchemaAttribute) (attr : SchemaAttribute)
    : Prop :=
  exists before after,
    attrs = before ++ attr :: after
    /\ Forall (fun a => ~ names_object_key a) before
    /\ names_object_key attr.

(** The entry records [literal] under the id of the governing attribute. *)
Definition records (catalogResp : CatalogResponse) (literal : string) : Prop :=
  exists attr value,
    governs (CatalogResponse_Attributes catalogResp) attr
    /\ CatalogResponse_AttributeValues catalogResp !! SchemaAttribute_ID attr
       = Some value
    /\ AttributeValue_Value_Literal value = literal.

End WithEnv.

End Lookup.

(** ** A small world to run the program in *)

Module Sample.

Definition config : Config :=
  {| JiraBaseURL := "https://jira.example.com";
     JiraUsername := "bot@example.com";
     JiraAPIToken := "jira-token";
     IncidentAPIToken := "incident-token";
     WebhookSecret := EmptyString;
     Port := "5000";
     JiraWorkspaceID := "ws1";
     ImpactedComponentFieldName := "Impacted component";
     ImpactedComponentJiraFieldID := "customfield_10234";
     ResponsibleComponentFieldName := "Responsible components";
     ResponsibleComponentJiraFieldID := "customfield_10235" |}.

(** The catalog answers with a body that is the object key itself; the
    decoder below turns it into a schema with one "Object Key" attribute. *)
Definition catalog_body (url : string) : option string :=
  if bool_decide (url = "https://api.incident.io/v2/catalog_entries/teletraan")
  then Some "PIN-3"
  else if bool_decide (url = "https://api.incident.io/v2/catalog_entries/ark")
  then Some "PIN-4"
  else if bool_decide (url = "https://api.incident.io/v2/catalog_entries/legacy")
  then Some "LEGACY"
  else if bool_decide (url = "https://api.incident.io/v2/catalog_entries/blank")
  then Some "blank-id"
  else None.

(** A ticketing system whose fields hold one value: a write of several
    values is refused with 400, any other write is accepted with 204. *)
Definition single_valued (payload : option JiraUpdateRequest) : Z :=
  match payload with
  | Some p =>
      if bool_decide
           (map_Forall (fun _ values => length values <= 1) (Fields p))
      then 204%Z else 400%Z
  | None => 400%Z
  end.

Definition answer (t : list Event) (req : Request)
    : result Response string :=
  if bool_decide (Method req = "GET") then
    match catalog_body (URL req) with
    | Some body => Ok {| StatusCode := 200; Body := body |}
    | None => Ok {| StatusCode := 404; Body := "not found" |}
    end
  else
    Ok {| StatusCode := single_valued (Payload req); Body := "rejected" |}.

(** An entry whose "Object Key" attribute came without an id, its value
    filed under the empty id. *)
Definition blank_response : CatalogResponse :=
  {| CatalogResponse_ID := "blank";
     CatalogResponse_Name := "Blank";
     CatalogResponse_ExternalID := EmptyString;
     CatalogResponse_AttributeValues :=
       {[ EmptyString := {| AttributeValue_Value_Literal := "PIN-3" |} ]};
     CatalogResponse_Attributes :=
       [ {| SchemaAttribute_ID := EmptyString;
            SchemaAttribute_Name := "Object Key" |} ] |}.

Definition decode_catalog (body : string)
    : result CatalogResponse string :=
  if bool_decide (body = "blank-id") then Ok blank_response
  else
    Ok {| CatalogResponse_ID := "entry";
          CatalogResponse_Name := "Entry";
          CatalogResponse_ExternalID := EmptyString;
          CatalogResponse_AttributeValues :=
            {[ "attr-key" := {| AttributeValue_Value_Literal := body |} ]};
          CatalogResponse_Attributes :=
            [ {| SchemaAttribute_ID := "attr-name";
                 SchemaAttribute_Name := "Name" |};
              {| SchemaAttribute_ID := "attr-key";
                 SchemaAttribute_Name := "Object Key" |} ] |}.

Definition value_of (catalogEntryID : string) : Value :=
  {| ValueCatalogEntry :=
       Some {| CatalogEntry_ID := catalogEntryID;
               CatalogEntry_Name := catalogEntryID;
               CatalogEntry_ExternalID := EmptyString |} |}.

Definition no_catalog_entry : Value := {| ValueCatalogEntry := None |}.

Definition entry (name : string) (values : list Value) : CustomFieldEntry :=
  {| CustomFieldEntry_CustomField :=
       {| CustomField_ID := "cf"; CustomField_Name := name;
          CustomField_Description := EmptyString;
          CustomField_FieldType := "multi_select" |};
     CustomFieldEntry_Values := values |}.

Definition incident (issue : string) (entries : list CustomFieldEntry)
    : Incident :=
  {| Incident_ID := "inc-1"; Incident_Name := "Outage";
     Incident_ExternalIssueReference :=
       {| Provider := "jira"; IssueName := issue;
          IssuePermalink := EmptyString |};
     Incident_CustomFieldEntries := entries |}.

Definition no_incident : Incident := incident EmptyString [].

Definition one_component : IncidentData :=
  {| IncidentData_Incident :=
       incident "PIN-7" [entry "Impacted component" [value_of "teletraan"]];
     IncidentData_PublicIncidentUpdatedV2 := no_incident;
     EventType := "incident.custom_field_updated" |}.

Definition two_fields : IncidentData :=
  {| IncidentData_Incident :=
       incident "PIN-7"
         [entry "Impacted component" [value_of "teletraan"; value_of "ark"];
          entry "Responsible components" [value_of "ark"]];
     IncidentData_PublicIncidentUpdatedV2 := no_incident;
     EventType := "incident.custom_field_updated" |}.

Definition no_issue : IncidentData :=
  {| IncidentData_Incident :=
       incident EmptyString [entry "Impacted component" [value_of "teletraan"]];
     IncidentData_PublicIncidentUpdatedV2 := no_incident;
     EventType := "incident.custom_field_updated" |}.

Definition created : IncidentData :=
  {| IncidentData_Incident :=
       incident "PIN-7" [entry "Impacted component" [value_of "teletraan"]];
     IncidentData_PublicIncidentUpdatedV2 := no_incident;
     EventType := "incident.created" |}.

Definition updated_v2 : IncidentData :=
  {| IncidentData_Incident :=
       incident "PIN-7" [entry "Impacted component" [value_of "teletraan"]];
     IncidentData_PublicIncidentUpdatedV2 :=
       incident "PIN-8" [entry "Responsible components" [value_of "ark"]];
     EventType := "public_incident.incident_updated_v2" |}.

(** The bodies the sample decoder understands, by name. *)
Definition unmarshal (body : string) : result IncidentData string :=
  if bool_decide (body = "one-component") then Ok one_component
  else if bool_decide (body = "two-fields") then Ok two_fields
  else if bool_decide (body = "no-issue") then Ok no_issue
  else if bool_decide (body = "created") then Ok created
  else if bool_decide (body = "updated-v2") then Ok updated_v2
  else Err "invalid character".

Definition env : Env :=
  {| unicode_ToLower := fun s => s;
     NewRequest_error := fun _ _ => None;
     client_Do := answer;
     Decode_CatalogResponse := decode_catalog;
     Unmarshal_IncidentData := unmarshal |}.

(** The same world with a ticketing system that refuses every write. *)
Definition refusing : Env :=
  {| unicode_ToLower := fun s => s;
     NewRequest_error := fun _ _ => None;
     client_Do := fun t req =>
       if bool_decide (Method req = "GET") then answer t req
       else Ok {| StatusCode := 400; Body := "rejected" |};
     Decode_CatalogResponse := decode_catalog;
     Unmarshal_IncidentData := unmarshal |}.

Definition post (body : string) : WebhookRequest :=
  {| Request_Method := "POST"; Request_ReadAll := Ok body;
     Request_RemoteAddr := "10.0.0.1:4000" |}.

Definition v3 : JiraComponentValue := {| ID := "ws1:3"; ObjectID := "3" |}.
Definition v4 : JiraComponentValue := {| ID := "ws1:4"; ObjectID := "4" |}.

Definition impacted : FieldMapping :=
  {| IncidentFieldName := "Impacted component";
     JiraFieldID := "customfield_10234" |}.

End Sample.

(** ** Startup: the environment, the configuration and the checks of [main] *)

Module Startup.

(** [os.Getenv] over the variables of the process: the value, or the empty
    string for a variable that is not set. *)
Definition os_Getenv (environ : gmap string string) (key : string) : string :=
  default EmptyString (environ !! key).

(** [getEnv] *)
Definition getEnv (environ : gmap string string) (key defaultValue : string)
    : string :=
  let value := os_Getenv environ key in
  if bool_decide (value ≠ EmptyString) then value else defaultValue.

(** [getConfig] *)
Definition getConfig (environ : gmap string string) : Config :=
  {| JiraBaseURL := getEnv environ "JIRA_BASE_URL" EmptyString;
     JiraUsername := getEnv environ "JIRA_USERNAME" EmptyString;
     JiraAPIToken := getEnv environ "JIRA_API_TOKEN" EmptyString;
     IncidentAPIToken := getEnv environ "INCIDENT_API_TOKEN" EmptyString;
     WebhookSecret := getEnv environ "WEBHOOK_SECRET" EmptyString;
     Port := getEnv environ "PORT" "5000";
     JiraWorkspaceID := getEnv environ "JIRA_WORKSPACE_ID" EmptyString;
     ImpactedComponentFieldName :=
       getEnv environ "IMPACTED_COMPONENT_FIELD_NAME" "Impacted component";
     ImpactedComponentJiraFieldID :=
       getEnv environ "IMPACTED_COMPONENT_JIRA_FIELD_ID" EmptyString;
     ResponsibleComponentFieldName :=
       getEnv environ "RESPONSIBLE_COMPONENT_FIELD_NAME" "Responsible components";
     ResponsibleComponentJiraFieldID :=
       getEnv environ "RESPONSIBLE_COMPONENT_JIRA_FIELD_ID" EmptyString |}.

(** The checks of [main] (source lines 474 to 501), in their order: the
    message of the first [log.Fatal] reached, or [None] when the program
    goes on to serve. *)
Definition main_checks (config : Config) : option string :=
  if bool_decide (JiraAPIToken config = EmptyString)
  then Some "JIRA_API_TOKEN environment variable is required"
  else if bool_decide (IncidentAPIToken config = EmptyString)
  then Some "INCIDENT_API_TOKEN environment variable is required"
  else if bool_decide (JiraBaseURL config = EmptyString)
  then Some "JIRA_BASE_URL environment variable is required"
  else if bool_decide (JiraUsername config = EmptyString)
  then Some "JIRA_USERNAME environment variable is required"
  else if bool_decide (JiraWorkspaceID config = EmptyString)
  then Some "JIRA_WORKSPACE_ID environment variable is required"
  else if bool_decide (ImpactedComponentJiraFieldID config = EmptyString)
  then Some "IMPACTED_COMPONENT_JIRA_FIELD_ID environment variable is required"
  else if bool_decide (ResponsibleComponentJiraFieldID config = EmptyString)
  then Some "RESPONSIBLE_COMPONENT_JIRA_FIELD_ID environment variable is required"
  else None.

(** [main] up to the point where it starts to serve: the configuration it
    serves with, or the message it dies with. *)
Definition main (environ : gmap string string) : result Config string :=
  let config := getConfig environ in
  match main_checks config with
  | Some message => Err message
  | None => Ok config
  end.

(** The variables [main] insists on. *)
Definition required : list string :=
  [ "JIRA_API_TOKEN"; "INCIDENT_API_TOKEN"; "JIRA_BASE_URL"; "JIRA_USERNAME";
    "JIRA_WORKSPACE_ID"; "IMPACTED_COMPONENT_JIRA_FIELD_ID";
    "RESPONSIBLE_COMPONENT_JIRA_FIELD_ID" ].

(** The variable is set, and not to the empty string. *)
Definition provided (environ : gmap string string) (key : string) : Prop :=
  exists value, environ !! key = Some value /\ value <> EmptyString.

(** The environment of the example file of the repository. *)
Definition example_environ : gmap string string :=
  list_to_map
    [ ("JIRA_BASE_URL", "https://your-domain.atlassian.net");
      ("JIRA_USERNAME", "your-email@company.com");
      ("JIRA_API_TOKEN", "your-jira-api-token");
      ("JIRA_WORKSPACE_ID", "your-jira-workspace-id");
      ("INCIDENT_API_TOKEN", "your-incident-api-token");
      ("IMPACTED_COMPONENT_FIELD_NAME", "Impacted component");
      ("IMPACTED_COMPONENT_JIRA_FIELD_ID", "customfield_10234");
      ("RESPONSIBLE_COMPONENT_FIELD_NAME", "Responsible components");
      ("RESPONSIBLE_COMPONENT_JIRA_FIELD_ID", "customfield_10235");
      ("WEBHOOK_SECRET", "your-webhook-secret");
      ("PORT", "5000") ].

End Startup.

(** ** Further observations on a run *)

(** The errors [updateJiraCustomField] returns. *)
Definition is_write_error (err : error) : bool :=
  match err with
  | ErrCreateRequest _ | ErrUpdateJiraField _ | ErrJiraStatus _ => true
  | _ => false
  end.

(** The answer [updateJiraCustomField] takes for an accepted write. *)
Definition accepted (resp : Response) : Prop :=
  StatusCode resp = 200%Z \/ StatusCode resp = 204%Z.

(** An event of a run for the issue [jiraIssueKey]: a log line, a lookup of
    some catalog entry, or a write to that issue of a non-empty list of
    values into one of the two configured fields. *)
Definition well_addressed (config : Config) (jiraIssueKey : string)
    (e : Event) : Prop :=
  match e with
  | Logged _ => True
  | Sent req =>
      (exists catalogEntryID, req = catalog_request config catalogEntryID)
      \/ (exists fieldID values,
            req = jira_request config jiraIssueKey fieldID values
            /\ values <> []
            /\ (fieldID = ImpactedComponentJiraFieldID config
                \/ fieldID = ResponsibleComponentJiraFieldID config))
  end.

(** A write to the issue [jiraIssueKey] that failed with [err]: a call of
    [updateJiraCustomField] for one of the two configured fields and a
    non-empty list of values, made at or after [t_start], that returned
    [err] and left the trace [t_end]. *)
Definition failed_write (env : Env) (config : Config) (jiraIssueKey : string)
    (t_start : list Event) (err : error) (t_end : list Event) : Prop :=
  exists fieldID values t0,
    (fieldID = ImpactedComponentJiraFieldID config
     \/ fieldID = ResponsibleComponentJiraFieldID config)
    /\ values <> []
    /\ t_start `prefix_of` t0
    /\ run (updateJiraCustomField env config jiraIssueKey fieldID values) t0
       = (Err err, t_end).

(** The values of a list the first loop of [processComponentField] looks
    up. *)
Definition catalog_backed (values : list Value) : list Value :=
  List.filter (fun value => negb (not_catalog_backed value)) values.

(** The name of the entry is the name of neither mapping. *)
Definition unmapped (config : Config) (fieldEntry : CustomFieldEntry) : Prop :=
  CustomField_Name (CustomFieldEntry_CustomField fieldEntry)
  <> ImpactedComponentFieldName config
  /\ CustomField_Name (CustomFieldEntry_CustomField fieldEntry)
     <> ResponsibleComponentFieldName config.

(** [config] with another webhook secret and another port. *)
Definition with_secret_and_port (config : Config) (secret port : string)
    : Config :=
  {| JiraBaseURL := JiraBaseURL config;
     JiraUsername := JiraUsername config;
     JiraAPIToken := JiraAPIToken config;
     IncidentAPIToken := IncidentAPIToken config;
     WebhookSecret := secret;
     Port := port;
     JiraWorkspaceID := JiraWorkspaceID config;
     ImpactedComponentFieldName := ImpactedComponentFieldName config;
     ImpactedComponentJiraFieldID := ImpactedComponentJiraFieldID config;
     ResponsibleComponentFieldName := ResponsibleComponentFieldName config;
     ResponsibleComponentJiraFieldID := ResponsibleComponentJiraFieldID config |}.

(** ** Further sample data *)

Module Scenario.

(** An event whose only custom field is not one of the two mapped ones. *)
Definition severity_only : IncidentData :=
  {| IncidentData_Incident :=
       Sample.incident "PIN-7"
         [Sample.entry "Severity" [Sample.value_of "teletraan"]];
     IncidentData_PublicIncidentUpdatedV2 := Sample.no_incident;
     EventType := "incident.custom_field_updated" |}.

(** An environment with the first required variable and nothing else. *)
Definition token_only : gmap string string :=
  {[ "JIRA_API_TOKEN" := "your-jira-api-token" ]}.

(** The same catalog entry listed twice, around a value without one. *)
Definition twice : list Value :=
  [ Sample.value_of "teletraan"; Sample.no_catalog_entry;
    Sample.value_of "teletraan" ].

(** Three fields: one that is not mapped, then the impacted one with two
    values, then the responsible one. *)
Definition three_fields : IncidentData :=
  {| IncidentData_Incident :=
       Sample.incident "PIN-7"
         [ Sample.entry "Severity" [Sample.value_of "legacy"];
           Sample.entry "Impacted component"
             [Sample.value_of "teletraan"; Sample.value_of "ark"];
           Sample.entry "Responsible components" [Sample.value_of "ark"] ];
     IncidentData_PublicIncidentUpdatedV2 := Sample.no_incident;
     EventType := "incident.custom_field_updated" |}.

End Scenario.

(** * Properties *)

(** ** Strings *)

Lemma app_nil_l (s : string) : EmptyString +:+ s = s.
Proof. reflexivity. Qed.

Lemma app_cons (c : ascii) (p s : string) :
  String c p +:+ s = String c (p +:+ s).
Proof. reflexivity. Qed.

Lemma hyphen_not_digit : Bytes.is_digit "-" = false.
Proof. reflexivity. Qed.

Lemma all_digits_no_hyphen (p d : string) :
  Bytes.all Bytes.is_digit (p +:+ "-" +:+ d) = false.
Proof.
  induction p as [|c p IH].
  - reflexivity.
  - rewrite app_cons. simpl. rewrite IH. apply andb_false_r.
Qed.

Lemma digits1_no_hyphen (p d : string) :
  Bytes.digits1 (p +:+ "-" +:+ d) = false.
Proof.
  pose proof (all_digits_no_hyphen p d) as H.
  destruct p; [reflexivity|]. rewrite app_cons in *. exact H.
Qed.

Lemma digits1_all (s : string) :
  Bytes.digits1 s = true -> Bytes.all Bytes.is_digit s = true.
Proof. destruct s; [discriminate|]. intros H; exact H. Qed.

(** The match of the pattern is the split of the text at its last hyphen,
    when only digits, and at least one, follow it. *)
Lemma hyphen_digits_end_Some (s d : string) :
  regexp.hyphen_digits_end s = Some d
  <-> exists p, s = p +:+ "-" +:+ d /\ Bytes.digits1 d = true.
Proof.
  split.
  - induction s as [|c r IH]; simpl; [discriminate|].
    destruct (bool_decide (c = "-"%char) && Bytes.digits1 r) eqn:E.
    + intros [= <-]. apply andb_prop in E as [Hc Hd].
      apply bool_decide_eq_true in Hc. subst c.
      exists EmptyString. split; [reflexivity | exact Hd].
    + intros H. destruct (IH H) as (p & -> & Hd).
      exists (String c p). split; [reflexivity | exact Hd].
  - intros (p & -> & Hd). induction p as [|c p IH].
    + change (EmptyString +:+ "-" +:+ d) with (String "-" d).
      simpl. rewrite Hd. reflexivity.
    + rewrite app_cons. simpl. rewrite digits1_no_hyphen, andb_false_r.
      exact IH.
Qed.

Lemma hyphen_digits_end_None (s : string) :
  regexp.hyphen_digits_end s = None
  <-> ~ exists p d, s = p +:+ "-" +:+ d /\ Bytes.digits1 d = true.
Proof.
  split.
  - intros H (p & d & Hs).
    assert (regexp.hyphen_digits_end s = Some d) as H'
      by (apply hyphen_digits_end_Some; eauto).
    congruence.
  - intros H. destruct (regexp.hyphen_digits_end s) as [d|] eqn:E; [|reflexivity].
    apply hyphen_digits_end_Some in E as (p & Hp). exfalso. apply H. eauto.
Qed.

(** What [strconv.Atoi] accepts. *)
Lemma Atoi_ok (s : string) :
  is_ok (strconv.Atoi s) = true
  <-> exists body,
        Bytes.digits1 body = true
        /\ ((s = body /\ (Bytes.decimal body < 2 ^ 63)%Z)
            \/ (s = "+" +:+ body /\ (Bytes.decimal body < 2 ^ 63)%Z)
            \/ (s = "-" +:+ body /\ (Bytes.decimal body <= 2 ^ 63)%Z)).
Proof.
  unfold strconv.Atoi, strconv.intSize. change (2 ^ (64 - 1))%Z with (2 ^ 63)%Z.
  destruct s as [|c r].
  { split; [discriminate|]. intros (b & Hb & [[<- _]|[[H _]|[H _]]]);
      [discriminate Hb | destruct b; discriminate H ..]. }
  destruct (decide (c = "-"%char)) as [->|Hm].
  { simpl. destruct r as [|c' r']; simpl.
    - split; [discriminate|].
      intros (b & Hb & [[<- _]|[[H _]|[H _]]]); try discriminate.
      rewrite app_cons, app_nil_l in H. injection H as <-. discriminate.
    - destruct (Bytes.is_digit c' && Bytes.all Bytes.is_digit r') eqn:Hd.
      + destruct (Z.leb_spec (Bytes.decimal (String c' r')) (2 ^ 63)); simpl.
        * split; [|reflexivity]. intros _. exists (String c' r'). split; [exact Hd|].
          right. right. split; [reflexivity | assumption].
        * split; [discriminate|].
          intros (b & Hb & [[<- _]|[[Hs _]|[Hs Hr]]]); try discriminate.
          rewrite app_cons, app_nil_l in Hs. injection Hs as <-. lia.
      + split; [discriminate|].
        intros (b & Hb & [[<- _]|[[Hs _]|[Hs Hr]]]); try discriminate.
        rewrite app_cons, app_nil_l in Hs. injection Hs as <-.
        simpl in Hb. congruence. }
  rewrite (bool_decide_eq_false_2 _ Hm). simpl.
  destruct (decide (c = "+"%char)) as [->|Hp].
  { simpl. destruct (Bytes.digits1 r) eqn:Hd.
    - destruct (Z.ltb_spec (Bytes.decimal r) (2 ^ 63)); simpl.
      + split; [|reflexivity]. intros _. exists r. split; [exact Hd|].
        right. left. split; [reflexivity | assumption].
      + split; [discriminate|].
        intros (b & Hb & [[<- _]|[[Hs Hr]|[Hs _]]]); try discriminate.
        rewrite app_cons, app_nil_l in Hs. injection Hs as <-. lia.
    - split; [discriminate|].
      intros (b & Hb & [[<- _]|[[Hs Hr]|[Hs _]]]); try discriminate.
      rewrite app_cons, app_nil_l in Hs. injection Hs as <-. congruence. }
  rewrite (bool_decide_eq_false_2 _ Hp). simpl.
  destruct (Bytes.is_digit c && Bytes.all Bytes.is_digit r) eqn:Hd.
  - destruct (Z.ltb_spec (Bytes.decimal (String c r)) (2 ^ 63)); simpl.
    + split; [|reflexivity]. intros _. exists (String c r). split; [exact Hd|].
      left. split; [reflexivity | assumption].
    + split; [discriminate|].
      intros (b & Hb & [[<- Hr]|[[Hs _]|[Hs _]]]); [lia | | ];
        rewrite app_cons, app_nil_l in Hs; congruence.
  - split; [discriminate|].
    intros (b & Hb & [[<- Hr]|[[Hs _]|[Hs _]]]);
      [simpl in Hb; congruence | | ];
      rewrite app_cons, app_nil_l in Hs; congruence.
Qed.

(** ** Runs in the sample world *)

Example sample_lookup :
  run (getCatalogEntryObjectKey Sample.env Sample.config "teletraan") []
  = (Ok "PIN-3",
     [ Sent {| Method := "GET";
               URL := "https://api.incident.io/v2/catalog_entries/teletraan";
               Auth := Bearer "incident-token";
               ContentType := "application/json"; Payload := None |};
       Logged (LogFoundObjectKey "PIN-3" "teletraan") ]).
Proof. vm_compute. reflexivity. Qed.

Example sample_end_to_end :
  let '(resp, t) := run (webhookHandler Sample.env Sample.config
                           (Sample.post "one-component")) [] in
  resp = write_status "success"
  /\ List.filter is_put t
     = [ Sent {| Method := "PUT";
                 URL := "https://jira.example.com/rest/api/3/issue/PIN-7";
                 Auth := BasicAuth "bot@example.com" "jira-token";
                 ContentType := "application/json";
                 Payload := Some {| Fields :=
                   {[ "customfield_10234" := [Sample.v3] ]} |} |} ].
Proof. vm_compute. split; reflexivity. Qed.

(** ** Reference extractor *)

Example extract_PIN_3 : extractJiraObjectID "PIN-3" = Ok "3".
Proof. reflexivity. Qed.

Example extract_SUP_2024_10 : extractJiraObjectID "SUP-2024-10" = Ok "10".
Proof. reflexivity. Qed.

Example extract_42 : extractJiraObjectID "42" = Ok "42".
Proof. reflexivity. Qed.

Example extract_NOHYPHEN :
  extractJiraObjectID "NOHYPHEN" = Err (ErrNoNumericID "NOHYPHEN").
Proof. reflexivity. Qed.

Example extract_empty : extractJiraObjectID EmptyString = Err ErrEmptyObjectKey.
Proof. reflexivity. Qed.

Example extract_trailing_newline :
  extractJiraObjectID (String "P" (String "-" (String "3" (String "010" EmptyString))))
  = Err (ErrNoNumericID (String "P" (String "-" (String "3" (String "010" EmptyString))))).
Proof. reflexivity. Qed.

(** A sign is kept when the whole key parses as an [int]. *)
Example extract_plus_42 : extractJiraObjectID "+42" = Ok "+42".
Proof. reflexivity. Qed.

Lemma int_text_Atoi (s : string) :
  Policy.int_text s -> is_ok (strconv.Atoi s) = true.
Proof.
  intros (body & Hd & Hs & Hr). apply Atoi_ok. exists body.
  split; [exact Hd|]. destruct Hs as [->| ->]; [left | right; left]; auto.
Qed.

Lemma Atoi_int_text (s : string) :
  ~ Policy.ends_in_hyphen_digits s ->
  is_ok (strconv.Atoi s) = true -> Policy.int_text s.
Proof.
  intros Hn H. apply Atoi_ok in H as (body & Hd & [[-> Hr]|[[-> Hr]|[-> Hr]]]).
  - exists body. auto.
  - exists body. auto.
  - exfalso. apply Hn. exists EmptyString, body. split; [reflexivity | exact Hd].
Qed.

(** C2, as the specification words it, fails on the code: the digits of
    2^63 do not end in a hyphen and digits, the whole string is numeric, and
    yet the extractor does not give the string back, because the value does
    not fit an [int]. *)
Lemma extract_numeric_claim_fails_at_two_pow_63 :
  ~ Policy.ends_in_hyphen_digits "9223372036854775808"
  /\ Policy.numeric "9223372036854775808"
  /\ extractJiraObjectID "9223372036854775808" <> Ok "9223372036854775808"
  /\ extractJiraObjectID "9223372036854775808"
     = Err (ErrNoNumericID "9223372036854775808").
Proof.
  split; [|split; [|split]].
  - apply hyphen_digits_end_None. vm_compute. reflexivity.
  - vm_compute. reflexivity.
  - vm_compute. discriminate.
  - vm_compute. reflexivity.
Qed.

(** C2, amended.  A key that ends in a hyphen followed by one or more digits
    yields that trailing digit run.  Any other key yields itself, sign
    included, when it is the text of an [int]: digits, optionally after a
    plus sign, of value below 2^63.  Every remaining key, the empty one
    among them, is refused.  The extractor takes the key and nothing else. *)
Theorem extractJiraObjectID_policy :
  (forall p d, Bytes.digits1 d = true ->
     extractJiraObjectID (p +:+ "-" +:+ d) = Ok d)
  /\ (forall s, ~ Policy.ends_in_hyphen_digits s -> Policy.int_text s ->
        extractJiraObjectID s = Ok s)
  /\ (forall s, ~ Policy.ends_in_hyphen_digits s -> ~ Policy.int_text s ->
        exists err, extractJiraObjectID s = Err err)
  /\ extractJiraObjectID EmptyString = Err ErrEmptyObjectKey.
Proof.
  split; [|split; [|split]].
  - intros p d Hd. unfold extractJiraObjectID.
    assert (regexp.hyphen_digits_end (p +:+ "-" +:+ d) = Some d) as ->
      by (apply hyphen_digits_end_Some; eauto).
    case_bool_decide as He; [|reflexivity].
    destruct p; discriminate He.
  - intros s Hn Hi. unfold extractJiraObjectID.
    apply int_text_Atoi in Hi.
    case_bool_decide as He; [subst s; discriminate Hi|].
    assert (regexp.hyphen_digits_end s = None) as ->
      by (apply hyphen_digits_end_None; exact Hn).
    destruct (strconv.Atoi s); [reflexivity | discriminate Hi].
  - intros s Hn Hi. unfold extractJiraObjectID.
    case_bool_decide as He; [eauto|].
    assert (regexp.hyphen_digits_end s = None) as ->
      by (apply hyphen_digits_end_None; exact Hn).
    destruct (strconv.Atoi s) eqn:E; [|eauto].
    exfalso. apply Hi. apply Atoi_int_text; [exact Hn|]. rewrite E. reflexivity.
  - reflexivity.
Qed.

(** ** Value formatter *)

(** C8: for every workspace identifier and every numeric id, the primary
    reference is the workspace identifier, a colon and the numeric id, and
    the secondary reference is the numeric id as it came; the workspace
    identifier is taken as configured, whatever its form; at workspace
    "ws1" and id "3" the value is the one of the specification. *)
Theorem formatJiraComponentValue_composition :
  (forall config objectID catalogEntryID,
     formatJiraComponentValue config objectID catalogEntryID
     = {| ID := JiraWorkspaceID config +:+ ":" +:+ objectID;
          ObjectID := objectID |})
  /\ formatJiraComponentValue Sample.config "3" "teletraan"
     = {| ID := "ws1:3"; ObjectID := "3" |}.
Proof. split; reflexivity. Qed.

(** ** Running the monad *)

Lemma run_ret {A} (a : A) (t : list Event) : run (mret a) t = (a, t).
Proof. reflexivity. Qed.

Lemma run_bind {A B} (m : M A) (k : A -> M B) (t : list Event) :
  run (m ≫= k) t = let '(a, t') := run m t in run (k a) t'.
Proof. reflexivity. Qed.

Lemma run_log (m : LogMsg) (t : list Event) :
  run (log m) t = (tt, t ++ [Logged m]).
Proof. reflexivity. Qed.

Lemma run_Do (env : Env) (req : Request) (t : list Event) :
  run (Do env req) t = (client_Do env t req, t ++ [Sent req]).
Proof. reflexivity. Qed.

Lemma count_app (p : Event -> bool) (t1 t2 : list Event) :
  count p (t1 ++ t2) = count p t1 + count p t2.
Proof. unfold count. rewrite List.filter_app, length_app. reflexivity. Qed.

Lemma upstream_calls_app (t1 t2 : list Event) :
  upstream_calls (t1 ++ t2) = upstream_calls t1 ++ upstream_calls t2.
Proof. unfold upstream_calls. apply filter_app. Qed.

Ltac run_step :=
  repeat first
    [ rewrite run_bind | rewrite run_log | rewrite run_ret | rewrite run_Do ].

(** ** Catalog resolver *)

Section Resolver.

Context (env : Env) (config : Config).

Lemma objectKeyAttrID_governs (attrs : list SchemaAttribute)
    (attr : SchemaAttribute) :
  Lookup.governs env attrs attr ->
  objectKeyAttrID env attrs = SchemaAttribute_ID attr.
Proof.
  intros (before & after & -> & Hb & Ha).
  induction Hb as [|a before Hna _ IH]; simpl.
  - rewrite bool_decide_eq_true_2 by exact Ha. reflexivity.
  - rewrite bool_decide_eq_false_2 by exact Hna. exact IH.
Qed.

Lemma objectKeyAttrID_nonempty (attrs : list SchemaAttribute) :
  objectKeyAttrID env attrs <> EmptyString ->
  exists attr,
    Lookup.governs env attrs attr
    /\ SchemaAttribute_ID attr = objectKeyAttrID env attrs.
Proof.
  induction attrs as [|a attrs IH]; simpl; [congruence|].
  case_bool_decide as Ha.
  - intros _. exists a. split; [|reflexivity].
    exists [], attrs. split; [reflexivity|]. split; [constructor | exact Ha].
  - intros Hne. destruct (IH Hne) as (attr & (before & after & -> & Hb & Hn) & Hid).
    exists attr. split; [|exact Hid].
    exists (a :: before), after. split; [reflexivity|].
    split; [constructor; assumption | exact Hn].
Qed.

Lemma objectKeyAttrID_unnamed (attrs : list SchemaAttribute) :
  Forall (fun a => ~ Lookup.names_object_key env a) attrs ->
  objectKeyAttrID env attrs = EmptyString.
Proof.
  induction 1 as [|a attrs Hna _ IH]; simpl; [reflexivity|].
  rewrite bool_decide_eq_false_2 by exact Hna. exact IH.
Qed.

(** The trace of one lookup: nothing when the request cannot be built, else
    the one request and at most one log line. *)
Lemma getCatalogEntryObjectKey_trace (catalogEntryID : string) (t : list Event) :
  let t' := snd (run (getCatalogEntryObjectKey env config catalogEntryID) t) in
  match NewRequest_error env "GET" (URL (catalog_request config catalogEntryID)) with
  | Some _ => t' = t
  | None =>
      t' = t ++ [Sent (catalog_request config catalogEntryID)]
      \/ exists m, t' = t ++ [Sent (catalog_request config catalogEntryID); Logged m]
  end.
Proof.
  unfold getCatalogEntryObjectKey. simpl.
  destruct (NewRequest_error env "GET" _) as [e|]; [reflexivity|].
  run_step. fold (catalog_request config catalogEntryID).
  destruct (client_Do env t (catalog_request config catalogEntryID)) as [resp|e];
    [|left; reflexivity].
  case_bool_decide; [left; reflexivity|].
  destruct (Decode_CatalogResponse env (Body resp)) as [cr|e];
    [|left; reflexivity].
  right.
  destruct (if bool_decide (objectKeyAttrID env (CatalogResponse_Attributes cr) ≠ EmptyString)
            then _ else _);
    run_step; simpl; rewrite <- app_assoc; eauto.
Qed.

End Resolver.

(** C7, as the specification words it, fails on the code: the schema of
    this answer has an attribute named "Object Key", the entry records the
    literal "PIN-3" under that attribute's id, the answer is a 200, and the
    lookup still reports that no object key was found, because the id is
    the empty string. *)
Lemma catalog_claim_fails_for_empty_attribute_id :
  client_Do Sample.env [] (catalog_request Sample.config "blank")
  = Ok {| StatusCode := 200; Body := "blank-id" |}
  /\ Decode_CatalogResponse Sample.env "blank-id" = Ok Sample.blank_response
  /\ Lookup.records Sample.env Sample.blank_response "PIN-3"
  /\ fst (run (getCatalogEntryObjectKey Sample.env Sample.config "blank") [])
     = Err (ErrNoObjectKey "blank").
Proof.
  split; [vm_compute; reflexivity|].
  split; [vm_compute; reflexivity|].
  split; [|vm_compute; reflexivity].
  exists {| SchemaAttribute_ID := EmptyString; SchemaAttribute_Name := "Object Key" |},
         {| AttributeValue_Value_Literal := "PIN-3" |}.
  split; [|split; [vm_compute; reflexivity | reflexivity]].
  exists [], []. split; [reflexivity|]. split; [constructor|].
  vm_compute. reflexivity.
Qed.

Section ResolverClaim.

Context (env : Env) (config : Config).

Lemma getCatalogEntryObjectKey_decoded (catalogEntryID : string)
    (t : list Event) (resp : Response) (catalogResp : CatalogResponse) :
  NewRequest_error env "GET" (URL (catalog_request config catalogEntryID)) = None ->
  client_Do env t (catalog_request config catalogEntryID) = Ok resp ->
  StatusCode resp = 200%Z ->
  Decode_CatalogResponse env (Body resp) = Ok catalogResp ->
  fst (run (getCatalogEntryObjectKey env config catalogEntryID) t)
  = let attrID := objectKeyAttrID env (CatalogResponse_Attributes catalogResp) in
    match (if bool_decide (attrID ≠ EmptyString)
           then CatalogResponse_AttributeValues catalogResp !! attrID
           else None) with
    | Some attrValue => Ok (AttributeValue_Value_Literal attrValue)
    | None => Err (ErrNoObjectKey catalogEntryID)
    end.
Proof.
  intros Hreq Hdo Hst Hdec. unfold getCatalogEntryObjectKey.
  simpl in Hreq. rewrite Hreq. run_step.
  fold (catalog_request config catalogEntryID). rewrite Hdo.
  rewrite bool_decide_eq_false_2 by (intros H; apply H; exact Hst).
  rewrite Hdec. simpl.
  destruct (if bool_decide (objectKeyAttrID env (CatalogResponse_Attributes catalogResp) ≠ EmptyString)
            then _ else _); reflexivity.
Qed.

(** C7, amended.  A lookup succeeds with the stored literal exactly when the
    request could be built, the answer has status 200 and a body that
    decodes, the first schema attribute whose lowered name is "object key"
    has a non-empty id, and the entry records a value under that id.  With
    such an answer it reports that no object key was found when no
    attribute is so named, when the first one so named has an empty id, or
    when the entry has no value under its id.  A transport error and any
    status other than 200 are failures.  At most one request is sent per
    call, and exactly one whenever the request could be built. *)
Theorem getCatalogEntryObjectKey_resolution (catalogEntryID : string)
    (t : list Event) :
  let req := catalog_request config catalogEntryID in
  let out := run (getCatalogEntryObjectKey env config catalogEntryID) t in
  (forall literal,
     fst out = Ok literal
     <-> NewRequest_error env "GET" (URL req) = None
         /\ exists resp catalogResp attr value,
              client_Do env t req = Ok resp
              /\ StatusCode resp = 200%Z
              /\ Decode_CatalogResponse env (Body resp) = Ok catalogResp
              /\ Lookup.governs env (CatalogResponse_Attributes catalogResp) attr
              /\ SchemaAttribute_ID attr <> EmptyString
              /\ CatalogResponse_AttributeValues catalogResp
                   !! SchemaAttribute_ID attr = Some value
              /\ AttributeValue_Value_Literal value = literal)
  /\ (forall resp catalogResp,
        NewRequest_error env "GET" (URL req) = None ->
        client_Do env t req = Ok resp ->
        StatusCode resp = 200%Z ->
        Decode_CatalogResponse env (Body resp) = Ok catalogResp ->
        Forall (fun a => ~ Lookup.names_object_key env a)
          (CatalogResponse_Attributes catalogResp)
        \/ (exists attr,
              Lookup.governs env (CatalogResponse_Attributes catalogResp) attr
              /\ (SchemaAttribute_ID attr = EmptyString
                  \/ CatalogResponse_AttributeValues catalogResp
                       !! SchemaAttribute_ID attr = None)) ->
        fst out = Err (ErrNoObjectKey catalogEntryID))
  /\ (forall cause,
        NewRequest_error env "GET" (URL req) = None ->
        client_Do env t req = Err cause ->
        fst out = Err (ErrFetchCatalogEntry cause))
  /\ (forall resp,
        NewRequest_error env "GET" (URL req) = None ->
        client_Do env t req = Ok resp ->
        StatusCode resp <> 200%Z ->
        fst out = Err (ErrAPIStatus (StatusCode resp)))
  /\ count is_sent (snd out) <= count is_sent t + 1
  /\ (NewRequest_error env "GET" (URL req) = None ->
      upstream_calls (snd out) = upstream_calls t ++ [Sent req]).
Proof.
  intros req out. subst req out.
  split; [|split; [|split; [|split; [|split]]]].
  - intros literal. split.
    + unfold getCatalogEntryObjectKey. simpl.
      destruct (NewRequest_error env "GET" _) as [e|] eqn:Hreq; [discriminate|].
      run_step. fold (catalog_request config catalogEntryID).
      destruct (client_Do env t _) as [resp|e] eqn:Hdo; [|discriminate].
      case_bool_decide as Hst; [discriminate|].
      destruct (Decode_CatalogResponse env (Body resp)) as [cr|e] eqn:Hdec;
        [|discriminate].
      case_bool_decide as Hid; [|discriminate].
      destruct (CatalogResponse_AttributeValues cr !! _) as [v|] eqn:Hv;
        [|discriminate].
      run_step. simpl. intros [= <-]. split; [reflexivity|].
      destruct (objectKeyAttrID_nonempty env _ Hid) as (attr & Hg & Ha).
      exists resp, cr, attr, v.
      rewrite Ha. repeat split; assumption.
    + intros (Hreq & resp & cr & attr & v & Hdo & Hst & Hdec & Hg & Hid & Hv & <-).
      rewrite (getCatalogEntryObjectKey_decoded _ _ _ _ Hreq Hdo Hst Hdec). simpl.
      rewrite (objectKeyAttrID_governs env _ _ Hg).
      rewrite bool_decide_eq_true_2 by exact Hid. rewrite Hv. reflexivity.
  - intros resp cr Hreq Hdo Hst Hdec Hmiss.
    rewrite (getCatalogEntryObjectKey_decoded _ _ _ _ Hreq Hdo Hst Hdec). simpl.
    destruct Hmiss as [Hnone|(attr & Hg & Hmiss)].
    + rewrite (objectKeyAttrID_unnamed env _ Hnone). reflexivity.
    + rewrite (objectKeyAttrID_governs env _ _ Hg).
      destruct Hmiss as [->|Hv]; [reflexivity|].
      rewrite Hv. case_bool_decide; reflexivity.
  - intros cause Hreq Hdo. unfold getCatalogEntryObjectKey.
    simpl in Hreq. rewrite Hreq. run_step.
    fold (catalog_request config catalogEntryID). rewrite Hdo. reflexivity.
  - intros resp Hreq Hdo Hst. unfold getCatalogEntryObjectKey.
    simpl in Hreq. rewrite Hreq. run_step.
    fold (catalog_request config catalogEntryID). rewrite Hdo.
    rewrite bool_decide_eq_true_2 by exact Hst. reflexivity.
  - pose proof (getCatalogEntryObjectKey_trace env config catalogEntryID t) as H.
    simpl in H.
    destruct (NewRequest_error env "GET" _); [rewrite H; lia|].
    destruct H as [-> | [m ->]]; rewrite count_app; unfold count; simpl; lia.
  - intros Hreq.
    pose proof (getCatalogEntryObjectKey_trace env config catalogEntryID t) as H.
    simpl in H, Hreq. rewrite Hreq in H.
    destruct H as [-> | [m ->]]; rewrite upstream_calls_app; reflexivity.
Qed.

End ResolverClaim.

Example sample_lookup_not_found :
  run (getCatalogEntryObjectKey Sample.env Sample.config "unknown") []
  = (Err (ErrAPIStatus 404),
     [ Sent (catalog_request Sample.config "unknown") ]).
Proof. vm_compute. reflexivity. Qed.

(** ** Field updater *)

Section Updater.

Context (env : Env) (config : Config).

(** One call of [updateJiraCustomField] logs its entry, sends at most one
    request, the write, and logs the outcome of a request that was answered. *)
Lemma updateJiraCustomField_trace (jiraIssueKey fieldID : string)
    (values : list JiraComponentValue) (t : list Event) :
  exists added,
    snd (run (updateJiraCustomField env config jiraIssueKey fieldID values) t)
    = t ++ Logged (LogUpdatingJira jiraIssueKey
                     {| Fields := {[ fieldID := values ]} |}) :: added
    /\ count is_update_attempt added = 0
    /\ count is_put added <= 1
    /\ (upstream_calls added = []
        \/ upstream_calls added
           = [Sent (jira_request config jiraIssueKey fieldID values)]).
Proof.
  unfold updateJiraCustomField. run_step.
  destruct (NewRequest_error env "PUT" _) as [e|].
  { exists []. run_step. simpl. auto. }
  run_step. fold (jira_request config jiraIssueKey fieldID values).
  destruct (client_Do env _ _) as [resp|e].
  - destruct (bool_decide (StatusCode resp ≠ 204%Z) && _ && _); run_step; simpl;
      rewrite <- !app_assoc; simpl; eexists; (split; [reflexivity|]);
      unfold count; simpl; auto.
  - run_step. simpl. rewrite <- !app_assoc. simpl. eexists.
    split; [reflexivity|]. unfold count; simpl; auto.
Qed.

Lemma updateJiraCustomField_counts (jiraIssueKey fieldID : string)
    (values : list JiraComponentValue) (t : list Event) :
  let t' :=
    snd (run (updateJiraCustomField env config jiraIssueKey fieldID values) t) in
  count is_update_attempt t' = count is_update_attempt t + 1
  /\ count is_put t' <= count is_put t + 1.
Proof.
  destruct (updateJiraCustomField_trace jiraIssueKey fieldID values t)
    as (added & E & Ha & Hp & _).
  simpl. rewrite E.
  change (Logged ?m :: added) with ([Logged m] ++ added).
  rewrite !count_app, Ha. unfold count at 2 5. simpl. lia.
Qed.

Lemma processComponentField_update_cases (jiraIssueKey : string)
    (fieldMapping : FieldMapping) (first : JiraComponentValue)
    (rest : list JiraComponentValue) (t : list Event) :
  let attempt :=
    run (updateJiraCustomField env config jiraIssueKey
           (JiraFieldID fieldMapping) (first :: rest)) t in
  run (processComponentField_update env config jiraIssueKey fieldMapping
         (first :: rest)) t
  = match fst attempt, rest with
    | Err _, _ :: _ =>
        run (updateJiraCustomField env config jiraIssueKey
               (JiraFieldID fieldMapping) [first])
          (snd attempt ++ [Logged (LogMultipleFailed first)])
    | _, _ => attempt
    end.
Proof.
  simpl. unfold processComponentField_update.
  rewrite bool_decide_eq_true_2 by (simpl; lia).
  run_step.
  destruct (run (updateJiraCustomField env config jiraIssueKey
                   (JiraFieldID fieldMapping) (first :: rest)) t)
    as [[[]|err] t1]; simpl.
  - reflexivity.
  - destruct rest as [|second rest].
    + rewrite bool_decide_eq_false_2 by (simpl; lia). reflexivity.
    + rewrite bool_decide_eq_true_2 by (simpl; lia). run_step. reflexivity.
Qed.


End Updater.

(** The fallback of the specification: two values, the write of both is
    refused, the write of the first alone is accepted. *)
Example sample_fallback :
  let '(res, t) :=
    run (processComponentField_update Sample.env Sample.config "PIN-7"
           Sample.impacted [Sample.v3; Sample.v4]) [] in
  res = Ok tt
  /\ List.filter is_put t
     = [ Sent (jira_request Sample.config "PIN-7" "customfield_10234"
                 [Sample.v3; Sample.v4]);
         Sent (jira_request Sample.config "PIN-7" "customfield_10234"
                 [Sample.v3]) ].
Proof. vm_compute. split; reflexivity. Qed.

(** The negative case: one value, refused, and nothing after it. *)
Example sample_no_fallback :
  let '(res, t) :=
    run (processComponentField_update Sample.refusing Sample.config "PIN-7"
           Sample.impacted [Sample.v3]) [] in
  res = Err (ErrJiraStatus 400)
  /\ List.filter is_put t
     = [ Sent (jira_request Sample.config "PIN-7" "customfield_10234"
                 [Sample.v3]) ].
Proof. vm_compute. split; reflexivity. Qed.

(** ** What a computation appends to the trace *)

Lemma appends_ret {A} (P : Event -> Prop) (a : A) : appends P (mret a).
Proof. intros t. exists []. rewrite run_ret, app_nil_r. auto. Qed.

Lemma appends_log (P : Event -> Prop) (m : LogMsg) :
  P (Logged m) -> appends P (log m).
Proof. intros H t. exists [Logged m]. rewrite run_log. auto. Qed.

Lemma appends_Do (P : Event -> Prop) (env : Env) (req : Request) :
  P (Sent req) -> appends P (Do env req).
Proof. intros H t. exists [Sent req]. rewrite run_Do. auto. Qed.

Lemma appends_bind {A B} (P : Event -> Prop) (m : M A) (k : A -> M B) :
  appends P m -> (forall a, appends P (k a)) -> appends P (m ≫= k).
Proof.
  intros Hm Hk t. rewrite run_bind.
  destruct (Hm t) as (added1 & E1 & H1).
  destruct (run m t) as [a t1]. simpl in E1. subst t1.
  destruct (Hk a (t ++ added1)) as (added2 & E2 & H2).
  exists (added1 ++ added2). rewrite E2, app_assoc. split; [reflexivity|].
  apply Forall_app. auto.
Qed.

Lemma appends_count {A} (P : Event -> Prop) (p : Event -> bool) (m : M A)
    (t : list Event) :
  appends P m -> (forall e, P e -> p e = false) ->
  List.filter p (snd (run m t)) = List.filter p t.
Proof.
  intros Hm Hp. destruct (Hm t) as (added & -> & Hadded).
  rewrite List.filter_app.
  assert (List.filter p added = []) as ->; [|apply app_nil_r].
  induction Hadded as [|e added He _ IH]; simpl; [reflexivity|].
  rewrite (Hp e He). exact IH.
Qed.

Lemma appends_prefix {A} (P : Event -> Prop) (m : M A) (t : list Event) :
  appends P m -> t `prefix_of` snd (run m t).
Proof. intros Hm. destruct (Hm t) as (added & -> & _). exists added. reflexivity. Qed.

Ltac appends_step :=
  first
    [ apply appends_ret
    | apply appends_log; split; reflexivity
    | apply appends_Do; split; reflexivity
    | apply appends_bind; [|intros ?] ].

(** ** The first loop of [processComponentField] *)

Section Resolve.

Context (env : Env) (config : Config).

Lemma getCatalogEntryObjectKey_appends (catalogEntryID : string) :
  appends not_a_write (getCatalogEntryObjectKey env config catalogEntryID).
Proof.
  unfold getCatalogEntryObjectKey.
  destruct (NewRequest_error env "GET" _); [appends_step|].
  appends_step; [appends_step|].
  destruct a as [resp|e]; [|appends_step].
  case_bool_decide; [appends_step|].
  destruct (Decode_CatalogResponse env (Body resp)) as [cr|e]; [|appends_step].
  destruct (if bool_decide (objectKeyAttrID env (CatalogResponse_Attributes cr) ≠ EmptyString)
            then _ else _); repeat appends_step.
Qed.

Lemma processComponentField_resolve_appends (values : list Value)
    (jiraValues : list JiraComponentValue) :
  appends not_a_write (processComponentField_resolve env config values jiraValues).
Proof.
  revert jiraValues. induction values as [|value rest IH]; intros jiraValues;
    simpl; [appends_step|].
  destruct (ValueCatalogEntry value) as [catalogEntry|]; [|apply IH].
  case_bool_decide; [apply IH|].
  appends_step; [apply getCatalogEntryObjectKey_appends|].
  destruct a as [objectKey|err]; [|appends_step; [appends_step | apply IH]].
  destruct (extractJiraObjectID objectKey);
    (appends_step; [appends_step | apply IH]).
Qed.

(** The loop over a list cut in two is the loop over the first part and
    then, from the values and the trace it left, the loop over the second. *)
Lemma processComponentField_resolve_app (before after : list Value)
    (jiraValues : list JiraComponentValue) (t : list Event) :
  run (processComponentField_resolve env config (before ++ after) jiraValues) t
  = let '(jiraValues', t') :=
      run (processComponentField_resolve env config before jiraValues) t in
    run (processComponentField_resolve env config after jiraValues') t'.
Proof.
  revert jiraValues t.
  induction before as [|value rest IH]; intros jiraValues t; simpl;
    [reflexivity|].
  destruct (ValueCatalogEntry value) as [catalogEntry|]; [|apply IH].
  case_bool_decide; [apply IH|].
  rewrite !run_bind.
  destruct (run (getCatalogEntryObjectKey env config _) t) as [[objectKey|err] t1].
  - destruct (extractJiraObjectID objectKey); rewrite !run_bind, !run_log; apply IH.
  - rewrite !run_bind, !run_log. apply IH.
Qed.


End Resolve.

Section ResolveClaims.

Context (env : Env) (config : Config).


Lemma processComponentField_resolve_skip (value : Value) (rest : list Value)
    (jiraValues : list JiraComponentValue) :
  not_catalog_backed value = true ->
  processComponentField_resolve env config (value :: rest) jiraValues
  = processComponentField_resolve env config rest jiraValues.
Proof.
  unfold not_catalog_backed. intros H. simpl.
  destruct (ValueCatalogEntry value); [|reflexivity].
  rewrite H. reflexivity.
Qed.

(** C10: a value without a catalog entry, or whose catalog entry has the
    empty id, is passed over before anything is sent or logged: on its own
    it leaves the batch and the trace as they were, and the run of a field
    is the run of the same field with that value taken out of its list. *)
Theorem not_catalog_backed_value_skipped (value : Value) :
  not_catalog_backed value = true ->
  (forall jiraValues t,
     run (processComponentField_resolve env config [value] jiraValues) t
     = (jiraValues, t))
  /\ (forall before after jiraValues t,
        run (processComponentField_resolve env config
               (before ++ value :: after) jiraValues) t
        = run (processComponentField_resolve env config
                 (before ++ after) jiraValues) t)
  /\ (forall customField before after jiraIssueKey fieldMapping t,
        run (processComponentField env config
               {| CustomFieldEntry_CustomField := customField;
                  CustomFieldEntry_Values := before ++ value :: after |}
               jiraIssueKey fieldMapping) t
        = run (processComponentField env config
                 {| CustomFieldEntry_CustomField := customField;
                    CustomFieldEntry_Values := before ++ after |}
                 jiraIssueKey fieldMapping) t).
Proof.
  intros Hskip.
  assert (forall before after jiraValues t,
            run (processComponentField_resolve env config
                   (before ++ value :: after) jiraValues) t
            = run (processComponentField_resolve env config
                     (before ++ after) jiraValues) t) as Hmid.
  { intros before after jiraValues t.
    rewrite !processComponentField_resolve_app.
    destruct (run (processComponentField_resolve env config before jiraValues) t)
      as [jiraValues' t'].
    rewrite processComponentField_resolve_skip by exact Hskip. reflexivity. }
  split; [|split].
  - intros jiraValues t.
    rewrite processComponentField_resolve_skip by exact Hskip. reflexivity.
  - exact Hmid.
  - intros customField before after jiraIssueKey fieldMapping t.
    unfold processComponentField. simpl. rewrite !run_bind, Hmid. reflexivity.
Qed.

(** C9: a field whose resolved list comes out empty is not written: the
    result is success, the trace is the one the resolution left, and it
    holds no write request and no entry into the updater beyond those that
    were there before. *)
Theorem processComponentField_empty_batch (customFieldEntry : CustomFieldEntry)
    (jiraIssueKey : string) (fieldMapping : FieldMapping) (t : list Event) :
  fst (run (processComponentField_resolve env config
              (CustomFieldEntry_Values customFieldEntry) []) t) = [] ->
  let out :=
    run (processComponentField env config customFieldEntry jiraIssueKey
           fieldMapping) t in
  out = (Ok tt,
         snd (run (processComponentField_resolve env config
                     (CustomFieldEntry_Values customFieldEntry) []) t))
  /\ List.filter is_put (snd out) = List.filter is_put t
  /\ List.filter is_update_attempt (snd out) = List.filter is_update_attempt t.
Proof.
  intros Hempty out.
  assert (out = (Ok tt,
                 snd (run (processComponentField_resolve env config
                             (CustomFieldEntry_Values customFieldEntry) []) t)))
    as E.
  { subst out. unfold processComponentField. rewrite run_bind.
    destruct (run (processComponentField_resolve env config _ []) t)
      as [jiraValues t1]. simpl in Hempty. subst jiraValues. reflexivity. }
  rewrite E. split; [reflexivity|]. simpl.
  split; apply appends_count with (P := not_a_write);
    try apply processComponentField_resolve_appends; intros e [H1 H2]; assumption.
Qed.

(** A field none of whose values is catalog-backed resolves to nothing,
    without a trace. *)
Lemma processComponentField_resolve_none (values : list Value)
    (jiraValues : list JiraComponentValue) (t : list Event) :
  forallb not_catalog_backed values = true ->
  run (processComponentField_resolve env config values jiraValues) t
  = (jiraValues, t).
Proof.
  induction values as [|value rest IH]; [reflexivity|].
  simpl forallb. intros H. apply andb_prop in H as [Hv Hrest].
  rewrite processComponentField_resolve_skip by exact Hv. auto.
Qed.

End ResolveClaims.

(** Four values: the second is unknown to the catalog, the key of the third
    holds no number; the first and the last make the batch. *)
Example sample_resolve :
  fst (run (processComponentField_resolve Sample.env Sample.config
              [ Sample.value_of "teletraan"; Sample.value_of "unknown";
                Sample.value_of "legacy"; Sample.value_of "ark" ] []) [])
  = [Sample.v3; Sample.v4].
Proof. vm_compute. reflexivity. Qed.

Lemma not_catalog_backed_value_skipped_witness :
  not_catalog_backed Sample.no_catalog_entry = true
  /\ run (processComponentField_resolve Sample.env Sample.config
            ([Sample.value_of "teletraan"]
             ++ Sample.no_catalog_entry :: [Sample.value_of "ark"]) []) []
     = run (processComponentField_resolve Sample.env Sample.config
              ([Sample.value_of "teletraan"] ++ [Sample.value_of "ark"]) []) [].
Proof.
  split; [reflexivity|].
  apply (not_catalog_backed_value_skipped Sample.env Sample.config
           Sample.no_catalog_entry); reflexivity.
Defined.


Lemma processComponentField_empty_batch_witness :
  fst (run (processComponentField_resolve Sample.env Sample.config
              (CustomFieldEntry_Values
                 (Sample.entry "Impacted component"
                    [ Sample.value_of "unknown"; Sample.no_catalog_entry;
                      Sample.value_of "legacy" ])) []) []) = []
  /\ (let out :=
        run (processComponentField Sample.env Sample.config
               (Sample.entry "Impacted component"
                  [ Sample.value_of "unknown"; Sample.no_catalog_entry;
                    Sample.value_of "legacy" ])
               "PIN-7" Sample.impacted) [] in
      out = (Ok tt,
             snd (run (processComponentField_resolve Sample.env Sample.config
                         (CustomFieldEntry_Values
                            (Sample.entry "Impacted component"
                               [ Sample.value_of "unknown";
                                 Sample.no_catalog_entry;
                                 Sample.value_of "legacy" ])) []) []))
      /\ List.filter is_put (snd out) = List.filter is_put []
      /\ List.filter is_update_attempt (snd out)
         = List.filter is_update_attempt []).
Proof.
  split; [vm_compute; reflexivity|].
  apply (processComponentField_empty_batch Sample.env Sample.config
           (Sample.entry "Impacted component"
              [ Sample.value_of "unknown"; Sample.no_catalog_entry;
                Sample.value_of "legacy" ])
           "PIN-7" Sample.impacted []).
  vm_compute; reflexivity.
Defined.

(** ** Sync orchestrator *)

Ltac destruct_component err t E :=
  match goal with
  | |- context [run (processComponentField ?env ?config ?entry ?key ?fm) ?t0] =>
      destruct (run (processComponentField env config entry key fm) t0)
        as [[[]|err] t] eqn:E
  end.

Section Orchestrator.

Context (env : Env) (config : Config).

#[local] Opaque processComponentField.

Lemma processFieldEntries_cons (jiraIssueKey : string)
    (fieldEntry : CustomFieldEntry) (rest : list CustomFieldEntry)
    (t : list Event) :
  run (processFieldEntries env config jiraIssueKey (fieldEntry :: rest)) t
  = let '(r, t') := run (processFieldEntry env config jiraIssueKey fieldEntry) t in
    match r with
    | Err err => (Err err, t')
    | Ok _ => run (processFieldEntries env config jiraIssueKey rest) t'
    end.
Proof.
  simpl. rewrite run_bind.
  destruct (run (processFieldEntry env config jiraIssueKey fieldEntry) t)
    as [[[]|err] t']; reflexivity.
Qed.

(** The loop over a list of entries cut in two: the first part runs first;
    an error in it is the result and ends the run; otherwise the second
    part runs from the trace the first one left. *)
Lemma processFieldEntries_app (jiraIssueKey : string)
    (before after : list CustomFieldEntry) (t : list Event) :
  run (processFieldEntries env config jiraIssueKey (before ++ after)) t
  = let '(r, t') := run (processFieldEntries env config jiraIssueKey before) t in
    match r with
    | Err err => (Err err, t')
    | Ok _ => run (processFieldEntries env config jiraIssueKey after) t'
    end.
Proof.
  revert t. induction before as [|fieldEntry rest IH]; intros t.
  - reflexivity.
  - rewrite <- app_comm_cons, !processFieldEntries_cons.
    destruct (run (processFieldEntry env config jiraIssueKey fieldEntry) t)
      as [[[]|err] t']; [apply IH | reflexivity].
Qed.

Lemma getFieldMappings_impacted :
  getFieldMappings config !!! "impacted_components"
  = {| IncidentFieldName := ImpactedComponentFieldName config;
       JiraFieldID := ImpactedComponentJiraFieldID config |}.
Proof. reflexivity. Qed.

Lemma getFieldMappings_responsible :
  getFieldMappings config !!! "responsible_components"
  = {| IncidentFieldName := ResponsibleComponentFieldName config;
       JiraFieldID := ResponsibleComponentJiraFieldID config |}.
Proof. reflexivity. Qed.

(** An entry fails exactly as the update of one of its mapped fields does:
    the impacted one, or, after it passed or did not apply, the
    responsible one. *)
Lemma processFieldEntry_Err (jiraIssueKey : string)
    (fieldEntry : CustomFieldEntry) (t : list Event) (err : error)
    (t' : list Event) :
  run (processFieldEntry env config jiraIssueKey fieldEntry) t = (Err err, t')
  -> exists fieldMapping t0 t1,
       CustomField_Name (CustomFieldEntry_CustomField fieldEntry)
       = IncidentFieldName fieldMapping
       /\ run (processComponentField env config fieldEntry jiraIssueKey
                 fieldMapping) t0 = (Err err, t1)
       /\ exists m, t' = t1 ++ [Logged m].
Proof.
  unfold processFieldEntry. cbv zeta. rewrite run_bind.
  case_bool_decide as Himp.
  - run_step. destruct_component e1 t1 E1; run_step.
    + case_bool_decide as Hresp; [|discriminate].
      run_step. destruct_component e2 t2 E2; run_step; [discriminate|].
      intros [= <- <-]. eauto 10.
    + intros [= <- <-]. eauto 10.
  - run_step. case_bool_decide as Hresp; [|discriminate].
    run_step. destruct_component e2 t2 E2; run_step; [discriminate|].
    intros [= <- <-]. eauto 10.
Qed.

(** An entry named as the impacted field whose update fails ends the loop
    there, with that error, whatever entries follow. *)
Lemma processFieldEntries_impacted_fails (jiraIssueKey : string)
    (fieldEntry : CustomFieldEntry) (rest : list CustomFieldEntry)
    (t : list Event) (err : error) (t1 : list Event) :
  CustomField_Name (CustomFieldEntry_CustomField fieldEntry)
  = ImpactedComponentFieldName config ->
  run (processComponentField env config fieldEntry jiraIssueKey
         {| IncidentFieldName := ImpactedComponentFieldName config;
            JiraFieldID := ImpactedComponentJiraFieldID config |})
    (t ++ [Logged LogProcessingImpacted]) = (Err err, t1) ->
  run (processFieldEntries env config jiraIssueKey (fieldEntry :: rest)) t
  = (Err err, t1 ++ [Logged (LogFailedImpacted err)]).
Proof.
  intros Hname Hfail. rewrite processFieldEntries_cons.
  unfold processFieldEntry. cbv zeta. rewrite run_bind.
  rewrite getFieldMappings_impacted. simpl IncidentFieldName.
  rewrite bool_decide_eq_true_2 by exact Hname.
  run_step. rewrite Hfail. run_step. reflexivity.
Qed.

(** An entry named as the responsible field whose update fails, after the
    impacted check passed it by or succeeded on it, ends the loop there. *)
Lemma processFieldEntries_responsible_fails (jiraIssueKey : string)
    (fieldEntry : CustomFieldEntry) (rest : list CustomFieldEntry)
    (t t' : list Event) (err : error) (t1 : list Event) :
  CustomField_Name (CustomFieldEntry_CustomField fieldEntry)
  = ResponsibleComponentFieldName config ->
  (CustomField_Name (CustomFieldEntry_CustomField fieldEntry)
   <> ImpactedComponentFieldName config /\ t' = t)
  \/ (CustomField_Name (CustomFieldEntry_CustomField fieldEntry)
      = ImpactedComponentFieldName config
      /\ run (processComponentField env config fieldEntry jiraIssueKey
                {| IncidentFieldName := ImpactedComponentFieldName config;
                   JiraFieldID := ImpactedComponentJiraFieldID config |})
           (t ++ [Logged LogProcessingImpacted]) = (Ok tt, t')) ->
  run (processComponentField env config fieldEntry jiraIssueKey
         {| IncidentFieldName := ResponsibleComponentFieldName config;
            JiraFieldID := ResponsibleComponentJiraFieldID config |})
    (t' ++ [Logged LogProcessingResponsible]) = (Err err, t1) ->
  run (processFieldEntries env config jiraIssueKey (fieldEntry :: rest)) t
  = (Err err, t1 ++ [Logged (LogFailedResponsible err)]).
Proof.
  intros Hname Himp Hfail. rewrite processFieldEntries_cons.
  unfold processFieldEntry. cbv zeta. rewrite run_bind.
  rewrite getFieldMappings_impacted, getFieldMappings_responsible.
  simpl IncidentFieldName.
  destruct Himp as [[Hne ->]|[Heq Hok]].
  - rewrite (bool_decide_eq_false_2 _ Hne). run_step.
    rewrite (bool_decide_eq_true_2 _ Hname). run_step.
    rewrite Hfail. run_step. reflexivity.
  - rewrite (bool_decide_eq_true_2 _ Heq). run_step.
    rewrite Hok. run_step.
    rewrite (bool_decide_eq_true_2 _ Hname). run_step.
    rewrite Hfail. run_step. reflexivity.
Qed.

(** C3: the entries of a recognized event are gone through in their order,
    and the first failed field update ends the run.  When the entries before
    some entry have been processed without error and the update of that
    entry for a mapped field fails (the impacted field, or the responsible
    field after the impacted check passed the entry by or succeeded on it),
    the event fails with that very error and the trace ends with the failing
    update and the line that logs it: nothing of the entries after it is
    looked up or written.  And for every cut of the list in two, the entries
    before the cut run first and those after it only after a success. *)
Theorem processIncidentUpdate_stops_at_first_failure
    (incidentData : IncidentData) (before : list CustomFieldEntry)
    (fieldEntry : CustomFieldEntry) (after : list CustomFieldEntry)
    (t t1 : list Event) :
  let incident := selectIncident incidentData in
  let jiraIssueKey := IssueName (Incident_ExternalIssueReference incident) in
  let fieldName := CustomField_Name (CustomFieldEntry_CustomField fieldEntry) in
  jiraIssueKey <> EmptyString ->
  Incident_CustomFieldEntries incident = before ++ fieldEntry :: after ->
  run (processFieldEntries env config jiraIssueKey before)
    (t ++ [Logged (LogProcessingIssue jiraIssueKey)]) = (Ok tt, t1) ->
  (fieldName = ImpactedComponentFieldName config ->
   forall err t2,
     run (processComponentField env config fieldEntry jiraIssueKey
            {| IncidentFieldName := ImpactedComponentFieldName config;
               JiraFieldID := ImpactedComponentJiraFieldID config |})
       (t1 ++ [Logged LogProcessingImpacted]) = (Err err, t2) ->
     run (processIncidentUpdate env config incidentData) t
     = (Err err, t2 ++ [Logged (LogFailedImpacted err)]))
  /\ (fieldName = ResponsibleComponentFieldName config ->
      forall t1' err t2,
        (fieldName <> ImpactedComponentFieldName config /\ t1' = t1)
        \/ (fieldName = ImpactedComponentFieldName config
            /\ run (processComponentField env config fieldEntry jiraIssueKey
                      {| IncidentFieldName := ImpactedComponentFieldName config;
                         JiraFieldID := ImpactedComponentJiraFieldID config |})
                 (t1 ++ [Logged LogProcessingImpacted]) = (Ok tt, t1')) ->
        run (processComponentField env config fieldEntry jiraIssueKey
               {| IncidentFieldName := ResponsibleComponentFieldName config;
                  JiraFieldID := ResponsibleComponentJiraFieldID config |})
          (t1' ++ [Logged LogProcessingResponsible]) = (Err err, t2) ->
        run (processIncidentUpdate env config incidentData) t
        = (Err err, t2 ++ [Logged (LogFailedResponsible err)]))
  /\ (forall first_part second_part,
        Incident_CustomFieldEntries incident = first_part ++ second_part ->
        let first_run :=
          run (processFieldEntries env config jiraIssueKey first_part)
            (t ++ [Logged (LogProcessingIssue jiraIssueKey)]) in
        run (processIncidentUpdate env config incidentData) t
        = match fst first_run with
          | Err err => (Err err, snd first_run)
          | Ok _ =>
              run (processFieldEntries env config jiraIssueKey second_part)
                (snd first_run)
          end).
Proof.
  intros incident jiraIssueKey fieldName Hkey Hentries Hbefore.
  assert (run (processIncidentUpdate env config incidentData) t
          = run (processFieldEntries env config jiraIssueKey
                   (Incident_CustomFieldEntries incident))
              (t ++ [Logged (LogProcessingIssue jiraIssueKey)])) as Hrun.
  { unfold processIncidentUpdate. fold incident. fold jiraIssueKey.
    rewrite bool_decide_eq_false_2 by exact Hkey.
    rewrite run_bind, run_log. reflexivity. }
  assert (run (processIncidentUpdate env config incidentData) t
          = run (processFieldEntries env config jiraIssueKey
                   (fieldEntry :: after)) t1) as Hhere.
  { rewrite Hrun, Hentries, processFieldEntries_app, Hbefore. reflexivity. }
  split; [|split].
  - intros Hname err t2 Hfail. rewrite Hhere.
    apply processFieldEntries_impacted_fails; assumption.
  - intros Hname t1' err t2 Himp Hfail. rewrite Hhere.
    apply processFieldEntries_responsible_fails with (t' := t1'); assumption.
  - intros first_part second_part Hcut first_run.
    rewrite Hrun, Hcut, processFieldEntries_app.
    fold first_run. destruct first_run as [[[]|err] t']; reflexivity.
Qed.

(** C5: a recognized event whose selected sub-object has no linked issue
    fails with the no-linked-issue error, the response is the 500 of a
    processing failure, and the run sends nothing upstream: it only logs. *)
Theorem webhookHandler_no_linked_issue (r : WebhookRequest) (body : string)
    (payload : IncidentData) (t : list Event) :
  Request_Method r = "POST" ->
  Request_ReadAll r = Ok body ->
  Unmarshal_IncidentData env body = Ok payload ->
  (EventType payload = "incident.custom_field_updated"
   /\ IssueName (Incident_ExternalIssueReference
                   (IncidentData_Incident payload)) = EmptyString)
  \/ (EventType payload = "public_incident.incident_updated_v2"
      /\ IssueName (Incident_ExternalIssueReference
                      (IncidentData_PublicIncidentUpdatedV2 payload))
         = EmptyString) ->
  (forall t', run (processIncidentUpdate env config payload) t'
              = (Err ErrNoJiraIssue, t'))
  /\ run (webhookHandler env config r) t
     = (http_Error "Processing failed" 500,
        t ++ [ Logged (LogWebhookReceived (Request_RemoteAddr r));
               Logged (LogProcessingEventType (EventType payload));
               Logged (LogFailedProcess ErrNoJiraIssue) ])
  /\ upstream_calls (snd (run (webhookHandler env config r) t))
     = upstream_calls t.
Proof.
  intros Hmethod Hread Hjson Hcase.
  assert (forall t', run (processIncidentUpdate env config payload) t'
                     = (Err ErrNoJiraIssue, t')) as Hproc.
  { intros t'. unfold processIncidentUpdate, selectIncident.
    destruct Hcase as [[Hty Hkey]|[Hty Hkey]]; rewrite Hty; simpl;
      rewrite Hkey; reflexivity. }
  assert (run (webhookHandler env config r) t
          = (http_Error "Processing failed" 500,
             t ++ [ Logged (LogWebhookReceived (Request_RemoteAddr r));
                    Logged (LogProcessingEventType (EventType payload));
                    Logged (LogFailedProcess ErrNoJiraIssue) ])) as Hrun.
  { unfold webhookHandler.
    rewrite bool_decide_eq_false_2 by (intros H; apply H; exact Hmethod).
    rewrite Hread, run_bind, run_log, Hjson, run_bind, run_log.
    assert (bool_decide (EventType payload ≠ "incident.custom_field_updated")
            && bool_decide
                 (EventType payload ≠ "public_incident.incident_updated_v2")
            = false) as ->.
    { destruct Hcase as [[Hty _]|[Hty _]]; rewrite Hty; reflexivity. }
    rewrite run_bind, Hproc, run_bind, run_log, run_ret, <- !app_assoc.
    reflexivity. }
  split; [exact Hproc|]. split; [exact Hrun|].
  rewrite Hrun. simpl. rewrite upstream_calls_app. apply app_nil_r.
Qed.

(** C6: of a well-formed event, the two kinds
    "incident.custom_field_updated" and "public_incident.incident_updated_v2"
    and no other are processed; any other kind is answered with a 200 that
    carries "ignored", after three log lines and nothing else.  An event of
    the second kind is processed on the sub-object of that name alone: its
    linked issue is the one required and logged, its custom-field entries
    are the ones gone through, and the default sub-object is not looked at;
    an event of the first kind is processed, in the same way, on the
    default sub-object alone. *)
Theorem webhookHandler_event_kinds (r : WebhookRequest) (body : string)
    (payload : IncidentData) (t : list Event) :
  Request_Method r = "POST" ->
  Request_ReadAll r = Ok body ->
  Unmarshal_IncidentData env body = Ok payload ->
  let out := run (webhookHandler env config r) t in
  let t0 := t ++ [ Logged (LogWebhookReceived (Request_RemoteAddr r));
                   Logged (LogProcessingEventType (EventType payload)) ] in
  let respond (processed : result unit error * list Event) :=
    match fst processed with
    | Err err =>
        (http_Error "Processing failed" 500,
         snd processed ++ [Logged (LogFailedProcess err)])
    | Ok _ => (write_status "success", snd processed ++ [Logged LogProcessed])
    end in
  let on (incident : Incident) (t' : list Event) :=
    let jiraIssueKey := IssueName (Incident_ExternalIssueReference incident) in
    if bool_decide (jiraIssueKey = EmptyString) then (Err ErrNoJiraIssue, t')
    else run (processFieldEntries env config jiraIssueKey
                (Incident_CustomFieldEntries incident))
           (t' ++ [Logged (LogProcessingIssue jiraIssueKey)]) in
  (EventType payload <> "incident.custom_field_updated" ->
   EventType payload <> "public_incident.incident_updated_v2" ->
   out = (write_status "ignored",
          t0 ++ [Logged (LogIgnoringEventType (EventType payload))])
   /\ upstream_calls (snd out) = upstream_calls t)
  /\ (EventType payload = "incident.custom_field_updated"
      \/ EventType payload = "public_incident.incident_updated_v2" ->
      out = respond (run (processIncidentUpdate env config payload) t0)
      /\ fst out <> write_status "ignored")
  /\ (EventType payload = "public_incident.incident_updated_v2" ->
      (forall t', run (processIncidentUpdate env config payload) t'
                  = on (IncidentData_PublicIncidentUpdatedV2 payload) t')
      /\ out = respond (on (IncidentData_PublicIncidentUpdatedV2 payload) t0))
  /\ (EventType payload = "incident.custom_field_updated" ->
      (forall t', run (processIncidentUpdate env config payload) t'
                  = on (IncidentData_Incident payload) t')
      /\ out = respond (on (IncidentData_Incident payload) t0)).
Proof.
  intros Hmethod Hread Hjson out t0 respond on.
  assert (out = run (
    log (LogProcessingEventType (EventType payload));;
    if bool_decide (EventType payload ≠ "incident.custom_field_updated")
       && bool_decide (EventType payload ≠ "public_incident.incident_updated_v2")
    then log (LogIgnoringEventType (EventType payload));;
         mret (write_status "ignored")
    else res ← processIncidentUpdate env config payload;
         match res with
         | Err err => log (LogFailedProcess err);;
                      mret (http_Error "Processing failed" 500)
         | Ok _ => log LogProcessed;; mret (write_status "success")
         end) (t ++ [Logged (LogWebhookReceived (Request_RemoteAddr r))]))
    as Hout.
  { subst out. unfold webhookHandler.
    rewrite bool_decide_eq_false_2 by (intros H; apply H; exact Hmethod).
    rewrite Hread, run_bind, run_log, Hjson. reflexivity. }
  rewrite run_bind, run_log, <- app_assoc in Hout. simpl app in Hout.
  fold t0 in Hout. clearbody out. subst out.
  assert (EventType payload = "incident.custom_field_updated"
          \/ EventType payload = "public_incident.incident_updated_v2" ->
          run (if bool_decide
                    (EventType payload ≠ "incident.custom_field_updated")
                  && bool_decide
                       (EventType payload
                        ≠ "public_incident.incident_updated_v2")
               then log (LogIgnoringEventType (EventType payload));;
                    mret (write_status "ignored")
               else res ← processIncidentUpdate env config payload;
                    match res with
                    | Err err => log (LogFailedProcess err);;
                                 mret (http_Error "Processing failed" 500)
                    | Ok _ => log LogProcessed;; mret (write_status "success")
                    end) t0
          = respond (run (processIncidentUpdate env config payload) t0))
    as Hrecognized.
  { intros Hkind.
    assert (bool_decide (EventType payload ≠ "incident.custom_field_updated")
            && bool_decide
                 (EventType payload ≠ "public_incident.incident_updated_v2")
            = false) as ->.
    { destruct Hkind as [Hty|Hty]; rewrite Hty; reflexivity. }
    rewrite run_bind. subst respond.
    destruct (run (processIncidentUpdate env config payload) t0)
      as [[[]|err] t1]; rewrite run_bind, run_log, run_ret; reflexivity. }
  assert (forall incident t',
            selectIncident payload = incident ->
            run (processIncidentUpdate env config payload) t' = on incident t')
    as Hon.
  { intros incident t' <-. subst on. unfold processIncidentUpdate. cbv zeta.
    destruct (decide (IssueName (Incident_ExternalIssueReference
                                   (selectIncident payload)) = EmptyString))
      as [He|He].
    - rewrite !(bool_decide_eq_true_2 _ He). reflexivity.
    - rewrite !(bool_decide_eq_false_2 _ He), run_bind, run_log. reflexivity. }
  split; [|split; [|split]].
  - intros Hn1 Hn2. rewrite !bool_decide_eq_true_2 by assumption. simpl andb.
    cbv iota. rewrite run_bind, run_log, run_ret. split; [reflexivity|].
    simpl. subst t0. rewrite !upstream_calls_app. simpl. rewrite !app_nil_r.
    reflexivity.
  - intros Hkind. rewrite (Hrecognized Hkind). split; [reflexivity|].
    subst respond. simpl.
    destruct (fst (run (processIncidentUpdate env config payload) t0));
      discriminate.
  - intros Hty.
    assert (selectIncident payload
            = IncidentData_PublicIncidentUpdatedV2 payload) as Hsel
      by (unfold selectIncident; rewrite Hty; reflexivity).
    split; [intros t'; apply Hon; exact Hsel|].
    rewrite Hrecognized by (right; exact Hty).
    rewrite (Hon _ t0 Hsel). reflexivity.
  - intros Hty.
    assert (selectIncident payload = IncidentData_Incident payload) as Hsel
      by (unfold selectIncident; rewrite Hty; reflexivity).
    split; [intros t'; apply Hon; exact Hsel|].
    rewrite Hrecognized by (left; exact Hty).
    rewrite (Hon _ t0 Hsel). reflexivity.
Qed.

#[local] Transparent processComponentField.

End Orchestrator.

(** ** The orchestrator in the sample world *)

Lemma processIncidentUpdate_stops_at_first_failure_witness :
  IssueName (Incident_ExternalIssueReference
               (selectIncident Scenario.three_fields)) <> EmptyString
  /\ Incident_CustomFieldEntries (selectIncident Scenario.three_fields)
     = [Sample.entry "Severity" [Sample.value_of "legacy"]]
       ++ Sample.entry "Impacted component"
            [Sample.value_of "teletraan"; Sample.value_of "ark"]
          :: [Sample.entry "Responsible components" [Sample.value_of "ark"]]
  /\ run (processFieldEntries Sample.refusing Sample.config "PIN-7"
            [Sample.entry "Severity" [Sample.value_of "legacy"]])
       ([] ++ [Logged (LogProcessingIssue "PIN-7")])
     = (Ok tt, [Logged (LogProcessingIssue "PIN-7")])
  /\ run (processIncidentUpdate Sample.refusing Sample.config
            Scenario.three_fields) []
     = (Err (ErrJiraStatus 400),
        snd (run (processComponentField Sample.refusing Sample.config
                    (Sample.entry "Impacted component"
                       [Sample.value_of "teletraan"; Sample.value_of "ark"])
                    "PIN-7" Sample.impacted)
               ([Logged (LogProcessingIssue "PIN-7")]
                ++ [Logged LogProcessingImpacted]))
        ++ [Logged (LogFailedImpacted (ErrJiraStatus 400))]).
Proof.
  split; [discriminate|]. split; [reflexivity|].
  split; [vm_compute; reflexivity|].
  apply (proj1 (processIncidentUpdate_stops_at_first_failure Sample.refusing
                  Sample.config Scenario.three_fields
                  [Sample.entry "Severity" [Sample.value_of "legacy"]]
                  (Sample.entry "Impacted component"
                     [Sample.value_of "teletraan"; Sample.value_of "ark"])
                  [Sample.entry "Responsible components" [Sample.value_of "ark"]]
                  [] [Logged (LogProcessingIssue "PIN-7")]
                  ltac:(discriminate) ltac:(reflexivity)
                  ltac:(vm_compute; reflexivity))).
  - reflexivity.
  - vm_compute. reflexivity.
Defined.

(** The same run seen from outside: the unmapped field costs nothing, the
    impacted field is looked up and refused twice, and the responsible
    field that follows is never reached. *)
Example sample_stop_three :
  let '(res, t) :=
    run (processIncidentUpdate Sample.refusing Sample.config
           Scenario.three_fields) [] in
  res = Err (ErrJiraStatus 400)
  /\ upstream_calls t
     = [ Sent (catalog_request Sample.config "teletraan");
         Sent (catalog_request Sample.config "ark");
         Sent (jira_request Sample.config "PIN-7" "customfield_10234"
                 [Sample.v3; Sample.v4]);
         Sent (jira_request Sample.config "PIN-7" "customfield_10234"
                 [Sample.v3]) ].
Proof. vm_compute. split; reflexivity. Qed.

(** Both writes of the first field are refused; the run ends there: the
    second field is neither looked up a second time nor written. *)
Example sample_stop :
  let '(res, t) :=
    run (processIncidentUpdate Sample.refusing Sample.config Sample.two_fields)
      [] in
  res = Err (ErrJiraStatus 400)
  /\ upstream_calls t
     = [ Sent (catalog_request Sample.config "teletraan");
         Sent (catalog_request Sample.config "ark");
         Sent (jira_request Sample.config "PIN-7" "customfield_10234"
                 [Sample.v3; Sample.v4]);
         Sent (jira_request Sample.config "PIN-7" "customfield_10234"
                 [Sample.v3]) ].
Proof. vm_compute. split; reflexivity. Qed.

(** With a ticketing system that takes one value per field, both fields
    are written, in the order of the event. *)
Example sample_both_fields :
  let '(res, t) :=
    run (processIncidentUpdate Sample.env Sample.config Sample.two_fields) [] in
  res = Ok tt
  /\ List.filter is_put t
     = [ Sent (jira_request Sample.config "PIN-7" "customfield_10234"
                 [Sample.v3; Sample.v4]);
         Sent (jira_request Sample.config "PIN-7" "customfield_10234"
                 [Sample.v3]);
         Sent (jira_request Sample.config "PIN-7" "customfield_10235"
                 [Sample.v4]) ].
Proof. vm_compute. split; reflexivity. Qed.

Lemma webhookHandler_no_linked_issue_witness :
  Request_Method (Sample.post "no-issue") = "POST"
  /\ Request_ReadAll (Sample.post "no-issue") = Ok "no-issue"
  /\ Unmarshal_IncidentData Sample.env "no-issue" = Ok Sample.no_issue
  /\ run (webhookHandler Sample.env Sample.config (Sample.post "no-issue")) []
     = (http_Error "Processing failed" 500,
        [] ++ [ Logged (LogWebhookReceived
                          (Request_RemoteAddr (Sample.post "no-issue")));
                Logged (LogProcessingEventType (EventType Sample.no_issue));
                Logged (LogFailedProcess ErrNoJiraIssue) ]).
Proof.
  split; [reflexivity|]. split; [reflexivity|]. split; [reflexivity|].
  apply (webhookHandler_no_linked_issue Sample.env Sample.config
           (Sample.post "no-issue") "no-issue" Sample.no_issue []);
    [reflexivity | reflexivity | reflexivity | left; split; reflexivity].
Defined.

Lemma webhookHandler_event_kinds_witness :
  (Request_Method (Sample.post "created") = "POST"
   /\ Request_ReadAll (Sample.post "created") = Ok "created"
   /\ Unmarshal_IncidentData Sample.env "created" = Ok Sample.created
   /\ run (webhookHandler Sample.env Sample.config (Sample.post "created")) []
      = (write_status "ignored",
         ([] ++ [ Logged (LogWebhookReceived
                            (Request_RemoteAddr (Sample.post "created")));
                  Logged (LogProcessingEventType (EventType Sample.created)) ])
         ++ [Logged (LogIgnoringEventType (EventType Sample.created))]))
  /\ (Request_Method (Sample.post "updated-v2") = "POST"
      /\ Request_ReadAll (Sample.post "updated-v2") = Ok "updated-v2"
      /\ Unmarshal_IncidentData Sample.env "updated-v2" = Ok Sample.updated_v2
      /\ EventType Sample.updated_v2 = "public_incident.incident_updated_v2"
      /\ forall t',
           run (processIncidentUpdate Sample.env Sample.config
                  Sample.updated_v2) t'
           = run (processFieldEntries Sample.env Sample.config "PIN-8"
                    [Sample.entry "Responsible components"
                       [Sample.value_of "ark"]])
               (t' ++ [Logged (LogProcessingIssue "PIN-8")])).
Proof.
  split.
  - split; [reflexivity|]. split; [reflexivity|]. split; [reflexivity|].
    apply (webhookHandler_event_kinds Sample.env Sample.config
             (Sample.post "created") "created" Sample.created []);
      [reflexivity | reflexivity | reflexivity | discriminate | discriminate].
  - split; [reflexivity|]. split; [reflexivity|]. split; [reflexivity|].
    split; [reflexivity|].
    apply (proj1 (proj1 (proj2 (proj2
             (webhookHandler_event_kinds Sample.env Sample.config
                (Sample.post "updated-v2") "updated-v2" Sample.updated_v2 []
                eq_refl eq_refl eq_refl)))
             eq_refl)).
Defined.

(** The v2 kind works on the sub-object of its name: issue "PIN-8" and the
    responsible field, not the default sub-object that came along. *)
Example sample_updated_v2 :
  let '(resp, t) :=
    run (webhookHandler Sample.env Sample.config (Sample.post "updated-v2")) []
  in
  resp = write_status "success"
  /\ upstream_calls t
     = [ Sent (catalog_request Sample.config "ark");
         Sent (jira_request Sample.config "PIN-8" "customfield_10235"
                 [Sample.v4]) ].
Proof. vm_compute. split; reflexivity. Qed.

Example sample_malformed :
  run (webhookHandler Sample.env Sample.config (Sample.post "{")) []
  = (http_Error "Invalid JSON payload" 400,
     [ Logged (LogWebhookReceived "10.0.0.1:4000");
       Logged (LogFailedDecodePayload "invalid character") ]).
Proof. vm_compute. reflexivity. Qed.

(** * Further properties of the code *)

(** ** Startup *)

Section StartupFacts.

Import Startup.

Context (environ : gmap string string).

Lemma getEnv_provided (key defaultValue value : string) :
  environ !! key = Some value -> value <> EmptyString ->
  getEnv environ key defaultValue = value.
Proof.
  intros Hk Hv. unfold getEnv, os_Getenv. rewrite Hk. simpl.
  rewrite bool_decide_eq_true_2 by exact Hv. reflexivity.
Qed.

Lemma getEnv_not_provided (key defaultValue : string) :
  ~ provided environ key -> getEnv environ key defaultValue = defaultValue.
Proof.
  intros Hn. unfold getEnv, os_Getenv.
  destruct (environ !! key) as [value|] eqn:Hk; simpl.
  - case_bool_decide as Hv; [|reflexivity].
    exfalso. apply Hn. exists value. auto.
  - reflexivity.
Qed.

Lemma provided_dec (key : string) : provided environ key \/ ~ provided environ key.
Proof.
  destruct (environ !! key) as [value|] eqn:Hk.
  - destruct (decide (value = EmptyString)) as [->|Hv].
    + right. intros (v & Hv & Hne). congruence.
    + left. exists value. auto.
  - right. intros (v & Hv & _). congruence.
Qed.

Lemma getEnv_required (key : string) :
  getEnv environ key EmptyString = EmptyString <-> ~ provided environ key.
Proof.
  split.
  - intros He (value & Hk & Hv).
    rewrite (getEnv_provided _ _ _ Hk Hv) in He. contradiction.
  - apply getEnv_not_provided.
Qed.

End StartupFacts.

Lemma getEnv_empty_default (environ : gmap string string)
    (key defaultValue : string) :
  Startup.getEnv environ key defaultValue = EmptyString ->
  defaultValue = EmptyString.
Proof.
  intros He. destruct (provided_dec environ key) as [(v & Hk & Hv)|Hn].
  - rewrite (getEnv_provided _ _ _ _ Hk Hv) in He. contradiction.
  - rewrite (getEnv_not_provided _ _ _ Hn) in He. exact He.
Qed.

(** X1: [getEnv] gives the value of a variable that is set to a non-empty
    string and the default in every other case, so a variable set to the
    empty string counts as not set, and the result is empty only when the
    default is. *)
Theorem getEnv_value_or_default (environ : gmap string string)
    (key defaultValue : string) :
  (forall value, environ !! key = Some value -> value <> EmptyString ->
     Startup.getEnv environ key defaultValue = value)
  /\ (environ !! key = None ->
      Startup.getEnv environ key defaultValue = defaultValue)
  /\ (environ !! key = Some EmptyString ->
      Startup.getEnv environ key defaultValue = defaultValue)
  /\ (Startup.getEnv environ key defaultValue = EmptyString ->
      defaultValue = EmptyString /\ ~ Startup.provided environ key).
Proof.
  split; [|split; [|split]].
  - intros value. apply getEnv_provided.
  - intros Hk. apply getEnv_not_provided. intros (v & Hv & _). congruence.
  - intros Hk. apply getEnv_not_provided. intros (v & Hv & Hne). congruence.
  - intros He. destruct (provided_dec environ key) as [(v & Hk & Hv)|Hn].
    + rewrite (getEnv_provided _ _ _ _ Hk Hv) in He. contradiction.
    + rewrite (getEnv_not_provided _ _ _ Hn) in He. auto.
Qed.

(** X2: [main] goes on to serve exactly when each of the seven required
    variables is set to a non-empty string, and it then serves with the
    configuration [getConfig] read. *)
Theorem main_serves_iff_required (environ : gmap string string) :
  (Startup.main environ = Ok (Startup.getConfig environ)
   <-> Forall (Startup.provided environ) Startup.required)
  /\ (forall config, Startup.main environ = Ok config ->
        config = Startup.getConfig environ).
Proof.
  split.
  - unfold Startup.main, Startup.main_checks, Startup.required.
    rewrite !Forall_cons, Forall_nil. simpl.
    pose proof (getEnv_required environ) as R.
    pose proof (provided_dec environ) as D.
    repeat case_bool_decide;
      repeat match goal with
             | H : Startup.getEnv environ ?k EmptyString = EmptyString |- _ =>
                 apply R in H
             | H : Startup.getEnv environ ?k EmptyString <> EmptyString |- _ =>
                 rewrite R in H;
                 destruct (D k); [clear H | contradiction]
             end;
      split; try discriminate; try reflexivity; try tauto.
  - intros config. unfold Startup.main.
    destruct (Startup.main_checks _); [discriminate|]. congruence.
Qed.

(** X3: when [main] dies, its message names a required variable that is not
    provided, and every required variable checked before that one is
    provided: the first missing variable, in the order of the checks, is
    the one reported. *)
Theorem main_reports_first_missing (environ : gmap string string)
    (message : string) :
  Startup.main environ = Err message ->
  exists before key after,
    Startup.required = before ++ key :: after
    /\ Forall (Startup.provided environ) before
    /\ ~ Startup.provided environ key
    /\ message = key +:+ " environment variable is required".
Proof.
  unfold Startup.main, Startup.main_checks, Startup.required. simpl.
  pose proof (getEnv_required environ) as R.
  pose proof (provided_dec environ) as D.
  repeat case_bool_decide;
    repeat match goal with
           | H : Startup.getEnv environ ?k EmptyString = EmptyString |- _ =>
               apply R in H
           | H : Startup.getEnv environ ?k EmptyString <> EmptyString |- _ =>
               rewrite R in H;
               destruct (D k); [clear H | contradiction]
           end;
    intros [= <-].
  - exists [], "JIRA_API_TOKEN"; eexists. repeat split; auto.
  - exists ["JIRA_API_TOKEN"], "INCIDENT_API_TOKEN"; eexists.
    repeat split; auto.
  - exists ["JIRA_API_TOKEN"; "INCIDENT_API_TOKEN"], "JIRA_BASE_URL"; eexists.
    repeat split; auto.
  - exists ["JIRA_API_TOKEN"; "INCIDENT_API_TOKEN"; "JIRA_BASE_URL"],
           "JIRA_USERNAME"; eexists.
    repeat split; auto.
  - exists ["JIRA_API_TOKEN"; "INCIDENT_API_TOKEN"; "JIRA_BASE_URL";
            "JIRA_USERNAME"], "JIRA_WORKSPACE_ID"; eexists.
    repeat split; auto 10.
  - exists ["JIRA_API_TOKEN"; "INCIDENT_API_TOKEN"; "JIRA_BASE_URL";
            "JIRA_USERNAME"; "JIRA_WORKSPACE_ID"],
           "IMPACTED_COMPONENT_JIRA_FIELD_ID"; eexists.
    repeat split; auto 10.
  - exists ["JIRA_API_TOKEN"; "INCIDENT_API_TOKEN"; "JIRA_BASE_URL";
            "JIRA_USERNAME"; "JIRA_WORKSPACE_ID";
            "IMPACTED_COMPONENT_JIRA_FIELD_ID"],
           "RESPONSIBLE_COMPONENT_JIRA_FIELD_ID"; eexists.
    repeat split; auto 10.
Qed.

Lemma getEnv_insert_empty (environ : gmap string string)
    (key k defaultValue : string) :
  Startup.getEnv (<[key := EmptyString]> environ) k defaultValue
  = Startup.getEnv (delete key environ) k defaultValue.
Proof.
  unfold Startup.getEnv, Startup.os_Getenv.
  destruct (decide (key = k)) as [->|Hne].
  - rewrite lookup_insert_eq, lookup_delete_eq. reflexivity.
  - rewrite lookup_insert_ne, lookup_delete_ne by exact Hne. reflexivity.
Qed.

(** X4: for the configuration, a variable set to the empty string is a
    variable that is not set: [getConfig] reads the same configuration from
    both environments. *)
Theorem getConfig_empty_is_unset (environ : gmap string string) (key : string) :
  Startup.getConfig (<[key := EmptyString]> environ)
  = Startup.getConfig (delete key environ).
Proof. unfold Startup.getConfig. rewrite !getEnv_insert_empty. reflexivity. Qed.

(** X5: whatever the environment, the port and the two incident field names
    of the configuration are not empty, and they are "5000", "Impacted
    component" and "Responsible components" when their variables are not
    provided. *)
Theorem getConfig_defaults (environ : gmap string string) :
  let config := Startup.getConfig environ in
  Port config <> EmptyString
  /\ ImpactedComponentFieldName config <> EmptyString
  /\ ResponsibleComponentFieldName config <> EmptyString
  /\ (~ Startup.provided environ "PORT" -> Port config = "5000")
  /\ (~ Startup.provided environ "IMPACTED_COMPONENT_FIELD_NAME" ->
      ImpactedComponentFieldName config = "Impacted component")
  /\ (~ Startup.provided environ "RESPONSIBLE_COMPONENT_FIELD_NAME" ->
      ResponsibleComponentFieldName config = "Responsible components").
Proof.
  simpl.
  repeat split;
    try (intros He; apply getEnv_empty_default in He; discriminate He);
    apply getEnv_not_provided.
Qed.

Example example_environ_serves :
  Startup.main Startup.example_environ
  = Ok {| JiraBaseURL := "https://your-domain.atlassian.net";
          JiraUsername := "your-email@company.com";
          JiraAPIToken := "your-jira-api-token";
          IncidentAPIToken := "your-incident-api-token";
          WebhookSecret := "your-webhook-secret";
          Port := "5000";
          JiraWorkspaceID := "your-jira-workspace-id";
          ImpactedComponentFieldName := "Impacted component";
          ImpactedComponentJiraFieldID := "customfield_10234";
          ResponsibleComponentFieldName := "Responsible components";
          ResponsibleComponentJiraFieldID := "customfield_10235" |}.
Proof. vm_compute. reflexivity. Qed.

(** ** Field updater, further *)

Section UpdaterFacts.

Context (env : Env) (config : Config).

(** X6: a write succeeds exactly when its request could be built, the
    service answered, and the status of the answer is 200 or 204; every
    error it returns is one of its own three. *)
Theorem updateJiraCustomField_success (jiraIssueKey fieldID : string)
    (values : list JiraComponentValue) (t : list Event) :
  let req := jira_request config jiraIssueKey fieldID values in
  let out := run (updateJiraCustomField env config jiraIssueKey fieldID values) t in
  (fst out = Ok tt
   <-> NewRequest_error env "PUT" (URL req) = None
       /\ exists resp,
            client_Do env
              (t ++ [Logged (LogUpdatingJira jiraIssueKey
                               {| Fields := {[ fieldID := values ]} |})]) req
            = Ok resp
            /\ accepted resp)
  /\ (forall err, fst out = Err err -> is_write_error err = true).
Proof.
  simpl. unfold updateJiraCustomField. run_step.
  destruct (NewRequest_error env "PUT" _) as [e|] eqn:Hreq.
  { run_step. simpl. split; [|intros err [= <-]; reflexivity].
    split; [discriminate | intros [[=] _]]. }
  run_step. fold (jira_request config jiraIssueKey fieldID values).
  destruct (client_Do env _ _) as [resp|e] eqn:Hdo.
  - destruct (decide (StatusCode resp = 204%Z)) as [H204|H204];
      [|destruct (decide (StatusCode resp = 200%Z)) as [H200|H200]].
    + rewrite bool_decide_eq_false_2 by (intros H; apply H; exact H204).
      simpl andb. cbv iota. run_step. simpl.
      split; [|discriminate]. split; [|reflexivity].
      intros _. split; [reflexivity|]. exists resp. split; [reflexivity|].
      right. exact H204.
    + rewrite (bool_decide_eq_true_2 _ H204).
      rewrite bool_decide_eq_false_2 by (intros H; apply H; exact H200).
      simpl andb. cbv iota. run_step. simpl.
      split; [|discriminate]. split; [|reflexivity].
      intros _. split; [reflexivity|]. exists resp. split; [reflexivity|].
      left. exact H200.
    + rewrite (bool_decide_eq_true_2 _ H204), (bool_decide_eq_true_2 _ H200).
      simpl andb. cbv iota. run_step. simpl.
      split; [|intros err [= <-]; reflexivity].
      split; [discriminate|].
      intros (_ & resp' & [= <-] & [H|H]); contradiction.
  - run_step. simpl. split; [|intros err [= <-]; reflexivity].
    split; [discriminate|]. intros (_ & resp & [=] & _).
Qed.

(** X7: one call of the updater sends nothing when its request cannot be
    built, and otherwise exactly one request: a PUT to the issue, with the
    account of the configuration, whose payload has the one field and,
    under it, the whole list of values. *)
Theorem updateJiraCustomField_request (jiraIssueKey fieldID : string)
    (values : list JiraComponentValue) (t : list Event) :
  let req := jira_request config jiraIssueKey fieldID values in
  upstream_calls
    (snd (run (updateJiraCustomField env config jiraIssueKey fieldID values) t))
  = upstream_calls t
    ++ match NewRequest_error env "PUT" (URL req) with
       | None => [Sent req]
       | Some _ => []
       end.
Proof.
  simpl. unfold updateJiraCustomField. run_step.
  destruct (NewRequest_error env "PUT" _) as [e|].
  { run_step. simpl. rewrite upstream_calls_app. reflexivity. }
  run_step. fold (jira_request config jiraIssueKey fieldID values).
  destruct (client_Do env _ _) as [resp|e].
  - destruct (bool_decide (StatusCode resp ≠ 204%Z) && _ && _); run_step; simpl;
      rewrite !upstream_calls_app, <- !app_assoc; reflexivity.
  - run_step. simpl. rewrite !upstream_calls_app, <- !app_assoc. reflexivity.
Qed.

End UpdaterFacts.

(** ** The handler, further *)

Section HandlerFacts.

Context (env : Env) (config : Config).

(** X8: a request that is not a POST is answered 405 before anything is
    logged; a POST whose body cannot be read, or does not decode, is
    answered 400; in all three cases nothing is sent upstream. *)
Theorem webhookHandler_rejects (r : WebhookRequest) (t : list Event) :
  let out := run (webhookHandler env config r) t in
  (Request_Method r <> "POST" ->
   out = (http_Error "Method not allowed" 405, t))
  /\ (forall cause,
        Request_Method r = "POST" -> Request_ReadAll r = Err cause ->
        out = (http_Error "Failed to read body" 400,
               t ++ [Logged (LogFailedReadBody cause)]))
  /\ (forall body cause,
        Request_Method r = "POST" -> Request_ReadAll r = Ok body ->
        Unmarshal_IncidentData env body = Err cause ->
        out = (http_Error "Invalid JSON payload" 400,
               t ++ [ Logged (LogWebhookReceived (Request_RemoteAddr r));
                      Logged (LogFailedDecodePayload cause) ]))
  /\ ((Request_Method r <> "POST"
       \/ (exists cause, Request_ReadAll r = Err cause)
       \/ (exists body cause,
             Request_ReadAll r = Ok body
             /\ Unmarshal_IncidentData env body = Err cause)) ->
      upstream_calls (snd out) = upstream_calls t
      /\ (Response_Code (fst out) = 405%Z \/ Response_Code (fst out) = 400%Z)).
Proof.
  simpl.
  assert (Request_Method r <> "POST" ->
          run (webhookHandler env config r) t
          = (http_Error "Method not allowed" 405, t)) as H405.
  { intros Hm. unfold webhookHandler.
    rewrite bool_decide_eq_true_2 by exact Hm. reflexivity. }
  assert (forall cause,
            Request_Method r = "POST" -> Request_ReadAll r = Err cause ->
            run (webhookHandler env config r) t
            = (http_Error "Failed to read body" 400,
               t ++ [Logged (LogFailedReadBody cause)])) as Hread.
  { intros cause Hm Hr. unfold webhookHandler.
    rewrite bool_decide_eq_false_2 by (intros H; apply H; exact Hm).
    rewrite Hr. run_step. reflexivity. }
  assert (forall body cause,
            Request_Method r = "POST" -> Request_ReadAll r = Ok body ->
            Unmarshal_IncidentData env body = Err cause ->
            run (webhookHandler env config r) t
            = (http_Error "Invalid JSON payload" 400,
               t ++ [ Logged (LogWebhookReceived (Request_RemoteAddr r));
                      Logged (LogFailedDecodePayload cause) ])) as Hjson.
  { intros body cause Hm Hr Hj. unfold webhookHandler.
    rewrite bool_decide_eq_false_2 by (intros H; apply H; exact Hm).
    rewrite Hr. run_step. rewrite Hj. run_step. rewrite <- app_assoc.
    reflexivity. }
  split; [exact H405|]. split; [exact Hread|]. split; [exact Hjson|].
  destruct (decide (Request_Method r = "POST")) as [Hm|Hm];
    [|intros _; rewrite (H405 Hm); simpl; auto].
  intros [Hn|[(cause & Hr)|(body & cause & Hr & Hj)]]; [contradiction| |].
  - rewrite (Hread cause Hm Hr). simpl. rewrite upstream_calls_app.
    split; [apply app_nil_r | auto].
  - rewrite (Hjson body cause Hm Hr Hj). simpl. rewrite upstream_calls_app.
    split; [apply app_nil_r | auto].
Qed.

(** X9: the handler answers with the "success" marker exactly when the
    request is a POST whose body decodes to an event of one of the two
    kinds and [processIncidentUpdate] returns no error for it; and the
    status it answers with is always one of 200, 400, 405 and 500. *)
Theorem webhookHandler_success (r : WebhookRequest) (t : list Event) :
  let out := run (webhookHandler env config r) t in
  (fst out = write_status "success"
   <-> Request_Method r = "POST"
       /\ exists body payload,
            Request_ReadAll r = Ok body
            /\ Unmarshal_IncidentData env body = Ok payload
            /\ (EventType payload = "incident.custom_field_updated"
                \/ EventType payload = "public_incident.incident_updated_v2")
            /\ fst (run (processIncidentUpdate env config payload)
                      (t ++ [ Logged (LogWebhookReceived (Request_RemoteAddr r));
                              Logged (LogProcessingEventType
                                        (EventType payload)) ]))
               = Ok tt)
  /\ (Response_Code (fst out) = 200%Z \/ Response_Code (fst out) = 400%Z
      \/ Response_Code (fst out) = 405%Z \/ Response_Code (fst out) = 500%Z).
Proof.
  simpl. unfold webhookHandler.
  case_bool_decide as Hm.
  { run_step. simpl. split; [|auto].
    split; [discriminate | intros [Hp _]; contradiction]. }
  assert (Request_Method r = "POST") as Hpost
    by (destruct (decide (Request_Method r = "POST")); [assumption | contradiction]).
  destruct (Request_ReadAll r) as [body|cause] eqn:Hr.
  2:{ run_step. simpl. split; [|auto].
      split; [discriminate | intros (_ & b & p & [=] & _)]. }
  run_step.
  destruct (Unmarshal_IncidentData env body) as [payload|cause] eqn:Hj.
  2:{ run_step. simpl. split; [|auto].
      split; [discriminate|].
      intros (_ & b & p & [= <-] & Hj' & _). congruence. }
  run_step. rewrite <- app_assoc. simpl app.
  destruct (bool_decide (EventType payload ≠ "incident.custom_field_updated")
            && bool_decide
                 (EventType payload ≠ "public_incident.incident_updated_v2"))
    eqn:Hkind.
  { run_step. simpl. split; [|auto].
    split; [discriminate|].
    intros (_ & b & p & [= <-] & Hj' & Hk & _).
    rewrite Hj in Hj'. injection Hj' as <-.
    apply andb_prop in Hkind as [H1 H2].
    apply bool_decide_eq_true in H1, H2. destruct Hk; contradiction. }
  assert (EventType payload = "incident.custom_field_updated"
          \/ EventType payload = "public_incident.incident_updated_v2") as Hk.
  { apply andb_false_iff in Hkind as [H|H]; apply bool_decide_eq_false in H;
      [left | right];
      match goal with
      | |- ?a = ?b => destruct (decide (a = b)); [assumption|]
      end; exfalso; apply H; assumption. }
  run_step.
  destruct (run (processIncidentUpdate env config payload) _)
    as [[[]|err] t1] eqn:Hp; run_step; simpl.
  - split; [|auto]. split; [|reflexivity].
    intros _. split; [exact Hpost|]. exists body, payload.
    rewrite Hp. auto.
  - split; [|auto]. split; [discriminate|].
    intros (_ & b & p & [= <-] & Hj' & _ & Hres).
    rewrite Hj in Hj'. injection Hj' as <-. rewrite Hp in Hres.
    discriminate Hres.
Qed.

End HandlerFacts.

(** ** Where the requests of a run go *)

Lemma appends_mono {A} (P Q : Event -> Prop) (m : M A) :
  (forall e, P e -> Q e) -> appends P m -> appends Q m.
Proof.
  intros HPQ Hm t. destruct (Hm t) as (added & E & Hadded).
  exists added. split; [exact E|]. eapply Forall_impl; eauto.
Qed.

Section Addressed.

Context (env : Env) (config : Config) (jiraIssueKey : string).

Lemma getCatalogEntryObjectKey_addressed (catalogEntryID : string) :
  appends (well_addressed config jiraIssueKey)
    (getCatalogEntryObjectKey env config catalogEntryID).
Proof.
  unfold getCatalogEntryObjectKey.
  destruct (NewRequest_error env "GET" _); [apply appends_ret|].
  apply appends_bind.
  { apply appends_Do. left. exists catalogEntryID. reflexivity. }
  intros [resp|e]; [|apply appends_ret].
  case_bool_decide; [apply appends_ret|].
  destruct (Decode_CatalogResponse env (Body resp)) as [cr|e];
    [|apply appends_ret].
  destruct (if bool_decide (objectKeyAttrID env (CatalogResponse_Attributes cr) ≠ EmptyString)
            then _ else _);
    (apply appends_bind; [apply appends_log; exact I | intros; apply appends_ret]).
Qed.

Lemma processComponentField_resolve_addressed (values : list Value)
    (jiraValues : list JiraComponentValue) :
  appends (well_addressed config jiraIssueKey)
    (processComponentField_resolve env config values jiraValues).
Proof.
  revert jiraValues. induction values as [|value rest IH]; intros jiraValues;
    simpl; [apply appends_ret|].
  destruct (ValueCatalogEntry value) as [catalogEntry|]; [|apply IH].
  case_bool_decide; [apply IH|].
  apply appends_bind; [apply getCatalogEntryObjectKey_addressed|].
  intros [objectKey|err].
  - destruct (extractJiraObjectID objectKey);
      (apply appends_bind; [apply appends_log; exact I | intros; apply IH]).
  - apply appends_bind; [apply appends_log; exact I | intros; apply IH].
Qed.

Lemma updateJiraCustomField_addressed (fieldID : string)
    (values : list JiraComponentValue) :
  values <> [] ->
  fieldID = ImpactedComponentJiraFieldID config
  \/ fieldID = ResponsibleComponentJiraFieldID config ->
  appends (well_addressed config jiraIssueKey)
    (updateJiraCustomField env config jiraIssueKey fieldID values).
Proof.
  intros Hne Hfid. unfold updateJiraCustomField.
  apply appends_bind; [apply appends_log; exact I|]. intros _.
  destruct (NewRequest_error env "PUT" _); [apply appends_ret|].
  apply appends_bind.
  { apply appends_Do. right. exists fieldID, values. auto. }
  intros [resp|e]; [|apply appends_ret].
  destruct (bool_decide (StatusCode resp ≠ 204%Z) && _ && _);
    (apply appends_bind; [apply appends_log; exact I | intros; apply appends_ret]).
Qed.

Lemma processComponentField_addressed (customFieldEntry : CustomFieldEntry)
    (fieldMapping : FieldMapping) :
  JiraFieldID fieldMapping = ImpactedComponentJiraFieldID config
  \/ JiraFieldID fieldMapping = ResponsibleComponentJiraFieldID config ->
  appends (well_addressed config jiraIssueKey)
    (processComponentField env config customFieldEntry jiraIssueKey
               fieldMapping).
Proof.
  intros Hfid. unfold processComponentField.
  apply appends_bind; [apply processComponentField_resolve_addressed|].
  intros jiraValues. unfold processComponentField_update.
  case_bool_decide as Hlen; [|apply appends_ret].
  apply appends_bind.
  { apply updateJiraCustomField_addressed; [|exact Hfid].
    intros ->. simpl in Hlen. lia. }
  intros err.
  destruct (negb (is_ok err) && bool_decide (1 < length jiraValues));
    [|apply appends_ret].
  apply appends_bind; [apply appends_log; exact I|]. intros _.
  apply updateJiraCustomField_addressed; [discriminate | exact Hfid].
Qed.

Lemma processFieldEntry_addressed (fieldEntry : CustomFieldEntry) :
  appends (well_addressed config jiraIssueKey)
    (processFieldEntry env config jiraIssueKey fieldEntry).
Proof.
  unfold processFieldEntry. cbv zeta.
  apply appends_bind.
  - case_bool_decide; [|apply appends_ret].
    apply appends_bind; [apply appends_log; exact I|]. intros _.
    apply appends_bind.
    { apply processComponentField_addressed. left. reflexivity. }
    intros [[]|err]; [apply appends_ret|].
    apply appends_bind; [apply appends_log; exact I | intros; apply appends_ret].
  - intros [[]|err]; [|apply appends_ret].
    case_bool_decide; [|apply appends_ret].
    apply appends_bind; [apply appends_log; exact I|]. intros _.
    apply appends_bind.
    { apply processComponentField_addressed. right. reflexivity. }
    intros [[]|err]; [apply appends_ret|].
    apply appends_bind; [apply appends_log; exact I | intros; apply appends_ret].
Qed.

Lemma processFieldEntries_addressed (entries : list CustomFieldEntry) :
  appends (well_addressed config jiraIssueKey)
    (processFieldEntries env config jiraIssueKey entries).
Proof.
  induction entries as [|fieldEntry rest IH]; simpl; [apply appends_ret|].
  apply appends_bind; [apply processFieldEntry_addressed|].
  intros [[]|err]; [apply IH | apply appends_ret].
Qed.

End Addressed.

(** X10: whatever the services answer, a run of [processIncidentUpdate] only
    appends to the trace, and every request it sends is either a lookup of
    a catalog entry, with the token of the incident platform, or a write to
    the issue linked to the selected sub-object, with the account of the
    ticketing system, of a non-empty list of values into one of the two
    configured fields. *)
Theorem processIncidentUpdate_requests (env : Env) (config : Config)
    (incidentData : IncidentData) :
  appends
    (well_addressed config
       (IssueName (Incident_ExternalIssueReference
                     (selectIncident incidentData))))
    (processIncidentUpdate env config incidentData).
Proof.
  unfold processIncidentUpdate. cbv zeta.
  case_bool_decide; [apply appends_ret|].
  apply appends_bind; [apply appends_log; exact I|]. intros _.
  apply processFieldEntries_addressed.
Qed.

Lemma main_reports_first_missing_witness :
  Startup.main Scenario.token_only
  = Err "INCIDENT_API_TOKEN environment variable is required"
  /\ exists before key after,
       Startup.required = before ++ key :: after
       /\ Forall (Startup.provided Scenario.token_only) before
       /\ ~ Startup.provided Scenario.token_only key
       /\ "INCIDENT_API_TOKEN environment variable is required"
          = key +:+ " environment variable is required".
Proof.
  split; [vm_compute; reflexivity|].
  apply (main_reports_first_missing Scenario.token_only).
  vm_compute. reflexivity.
Defined.

(** ** Entries that are not mapped *)

Section Unmapped.

Context (env : Env) (config : Config).

Lemma processFieldEntry_unmapped (jiraIssueKey : string)
    (fieldEntry : CustomFieldEntry) (t : list Event) :
  unmapped config fieldEntry ->
  run (processFieldEntry env config jiraIssueKey fieldEntry) t = (Ok tt, t).
Proof.
  intros [Hi Hr]. unfold processFieldEntry. cbv zeta.
  rewrite getFieldMappings_impacted, getFieldMappings_responsible. simpl.
  rewrite !bool_decide_eq_false_2 by assumption. reflexivity.
Qed.

Lemma processFieldEntries_unmapped (jiraIssueKey : string)
    (entries : list CustomFieldEntry) (t : list Event) :
  Forall (unmapped config) entries ->
  run (processFieldEntries env config jiraIssueKey entries) t = (Ok tt, t).
Proof.
  induction 1 as [|fieldEntry rest Hu _ IH]; [reflexivity|].
  rewrite processFieldEntries_cons, processFieldEntry_unmapped by exact Hu.
  exact IH.
Qed.

(** X12: an event with a linked issue none of whose custom fields bears the
    name of a mapping succeeds after the one log line that names the issue:
    no entry is resolved, nothing is sent, whatever values the entries
    hold. *)
Theorem processIncidentUpdate_unmapped (incidentData : IncidentData)
    (t : list Event) :
  let incident := selectIncident incidentData in
  let jiraIssueKey := IssueName (Incident_ExternalIssueReference incident) in
  jiraIssueKey <> EmptyString ->
  Forall (unmapped config) (Incident_CustomFieldEntries incident) ->
  run (processIncidentUpdate env config incidentData) t
  = (Ok tt, t ++ [Logged (LogProcessingIssue jiraIssueKey)]).
Proof.
  intros incident jiraIssueKey Hkey Hun.
  unfold processIncidentUpdate. fold incident. fold jiraIssueKey.
  rewrite bool_decide_eq_false_2 by exact Hkey.
  run_step. apply processFieldEntries_unmapped. exact Hun.
Qed.

End Unmapped.

Lemma processIncidentUpdate_unmapped_witness :
  IssueName (Incident_ExternalIssueReference
               (selectIncident Scenario.severity_only)) <> EmptyString
  /\ Forall (unmapped Sample.config)
       (Incident_CustomFieldEntries (selectIncident Scenario.severity_only))
  /\ run (processIncidentUpdate Sample.env Sample.config Scenario.severity_only) []
     = (Ok tt,
        [] ++ [Logged (LogProcessingIssue
                         (IssueName (Incident_ExternalIssueReference
                            (selectIncident Scenario.severity_only))))]).
Proof.
  assert (Forall (unmapped Sample.config)
            (Incident_CustomFieldEntries (selectIncident Scenario.severity_only)))
    as Hun.
  { repeat constructor; simpl; discriminate. }
  split; [discriminate|]. split; [exact Hun|].
  apply (processIncidentUpdate_unmapped Sample.env Sample.config
           Scenario.severity_only []); [discriminate | exact Hun].
Defined.

(** ** Lookups of one field *)

Section Lookups.

Context (env : Env) (config : Config).

Lemma getCatalogEntryObjectKey_gets (catalogEntryID : string) (t : list Event) :
  count is_get
    (snd (run (getCatalogEntryObjectKey env config catalogEntryID) t))
  = count is_get t
    + match NewRequest_error env "GET"
              (URL (catalog_request config catalogEntryID)) with
      | None => 1
      | Some _ => 0
      end.
Proof.
  pose proof (getCatalogEntryObjectKey_trace env config catalogEntryID t) as H.
  simpl in H. simpl.
  destruct (NewRequest_error env "GET" _); [rewrite H; lia|].
  destruct H as [-> | [m ->]]; rewrite count_app; reflexivity.
Qed.

Lemma catalog_backed_skip (value : Value) (rest : list Value) :
  not_catalog_backed value = true ->
  catalog_backed (value :: rest) = catalog_backed rest.
Proof. intros H. unfold catalog_backed. simpl. rewrite H. reflexivity. Qed.

Lemma catalog_backed_keep (value : Value) (rest : list Value) :
  not_catalog_backed value = false ->
  catalog_backed (value :: rest) = value :: catalog_backed rest.
Proof. intros H. unfold catalog_backed. simpl. rewrite H. reflexivity. Qed.

Lemma processComponentField_resolve_counts (values : list Value)
    (jiraValues : list JiraComponentValue) (t : list Event) :
  let out := run (processComponentField_resolve env config values jiraValues) t in
  count is_get (snd out) <= count is_get t + length (catalog_backed values)
  /\ length (fst out) <= length jiraValues + length (catalog_backed values)
  /\ ((forall catalogEntryID,
         NewRequest_error env "GET"
           (URL (catalog_request config catalogEntryID)) = None) ->
      count is_get (snd out) = count is_get t + length (catalog_backed values)).
Proof.
  revert jiraValues t.
  induction values as [|value rest IH]; intros jiraValues t.
  { simpl. repeat split; intros; lia. }
  destruct (not_catalog_backed value) eqn:Hskip.
  { rewrite processComponentField_resolve_skip, catalog_backed_skip
      by exact Hskip. apply IH. }
  rewrite catalog_backed_keep by exact Hskip.
  unfold not_catalog_backed in Hskip. simpl processComponentField_resolve.
  destruct (ValueCatalogEntry value) as [catalogEntry|]; [|discriminate].
  rewrite Hskip. rewrite run_bind.
  pose proof (getCatalogEntryObjectKey_gets (CatalogEntry_ID catalogEntry) t)
    as Hget.
  destruct (run (getCatalogEntryObjectKey env config _) t)
    as [[objectKey|err] t1]; simpl in Hget.
  - destruct (extractJiraObjectID objectKey) as [objectID|err];
      rewrite run_bind, run_log.
    + match goal with
      | |- context [run (processComponentField_resolve env config rest ?jvs) ?t2] =>
          destruct (IH jvs t2) as (H1 & H2 & H3)
      end.
      rewrite count_app, length_app in *. simpl in *.
      change (count is_get [Logged ?m]) with 0 in *.
      split; [|split].
      * destruct (NewRequest_error env "GET" _); lia.
      * lia.
      * intros Hall. rewrite (H3 Hall), Hget, Hall. lia.
    + match goal with
      | |- context [run (processComponentField_resolve env config rest ?jvs) ?t2] =>
          destruct (IH jvs t2) as (H1 & H2 & H3)
      end.
      rewrite count_app in *. simpl in *.
      change (count is_get [Logged ?m]) with 0 in *.
      split; [|split].
      * destruct (NewRequest_error env "GET" _); lia.
      * lia.
      * intros Hall. rewrite (H3 Hall), Hget, Hall. lia.
  - rewrite run_bind, run_log.
    match goal with
    | |- context [run (processComponentField_resolve env config rest ?jvs) ?t2] =>
        destruct (IH jvs t2) as (H1 & H2 & H3)
    end.
    rewrite count_app in *. simpl in *.
    change (count is_get [Logged ?m]) with 0 in *.
    split; [|split].
    + destruct (NewRequest_error env "GET" _); lia.
    + lia.
    + intros Hall. rewrite (H3 Hall), Hget, Hall. lia.
Qed.

(** X13: the first loop of [processComponentField] sends at most one lookup
    for each value that has a catalog entry with a non-empty id, and adds at
    most one value to the batch for each; when every lookup request can be
    built it sends exactly one for each, also for an entry listed more than
    once: nothing is remembered from one value to the next. *)
Theorem processComponentField_resolve_lookups (values : list Value)
    (jiraValues : list JiraComponentValue) (t : list Event) :
  let out := run (processComponentField_resolve env config values jiraValues) t in
  count is_get (snd out) <= count is_get t + length (catalog_backed values)
  /\ length (fst out) <= length jiraValues + length (catalog_backed values)
  /\ ((forall catalogEntryID,
         NewRequest_error env "GET"
           (URL (catalog_request config catalogEntryID)) = None) ->
      count is_get (snd out) = count is_get t + length (catalog_backed values)).
Proof. apply processComponentField_resolve_counts. Qed.

End Lookups.

(** The entry listed twice is looked up twice, and formatted twice. *)
Example sample_twice :
  let '(batch, t) :=
    run (processComponentField_resolve Sample.env Sample.config
           Scenario.twice []) [] in
  batch = [Sample.v3; Sample.v3]
  /\ List.filter is_get t
     = [ Sent (catalog_request Sample.config "teletraan");
         Sent (catalog_request Sample.config "teletraan") ].
Proof. vm_compute. split; reflexivity. Qed.

(** ** The order of lookups and writes within one field *)

Section FieldOrder.

Context (env : Env) (config : Config).

Lemma updateJiraCustomField_no_get (jiraIssueKey fieldID : string)
    (values : list JiraComponentValue) :
  appends (fun e => is_get e = false)
    (updateJiraCustomField env config jiraIssueKey fieldID values).
Proof.
  unfold updateJiraCustomField.
  apply appends_bind; [apply appends_log; reflexivity|]. intros _.
  destruct (NewRequest_error env "PUT" _); [apply appends_ret|].
  apply appends_bind; [apply appends_Do; reflexivity|].
  intros [resp|e]; [|apply appends_ret].
  destruct (bool_decide (StatusCode resp ≠ 204%Z) && _ && _);
    (apply appends_bind;
     [apply appends_log; reflexivity | intros; apply appends_ret]).
Qed.

Lemma processComponentField_update_no_get (jiraIssueKey : string)
    (fieldMapping : FieldMapping) (jiraValues : list JiraComponentValue) :
  appends (fun e => is_get e = false)
    (processComponentField_update env config jiraIssueKey fieldMapping
       jiraValues).
Proof.
  unfold processComponentField_update.
  case_bool_decide; [|apply appends_ret].
  apply appends_bind; [apply updateJiraCustomField_no_get|]. intros err.
  destruct (negb (is_ok err) && bool_decide (1 < length jiraValues));
    [|apply appends_ret].
  apply appends_bind; [apply appends_log; reflexivity|]. intros _.
  apply updateJiraCustomField_no_get.
Qed.

Lemma processComponentField_update_puts (jiraIssueKey : string)
    (fieldMapping : FieldMapping) (jiraValues : list JiraComponentValue)
    (t : list Event) :
  count is_put
    (snd (run (processComponentField_update env config jiraIssueKey
                 fieldMapping jiraValues) t))
  <= count is_put t + 2.
Proof.
  destruct jiraValues as [|first rest]; [simpl; lia|].
  rewrite processComponentField_update_cases.
  pose proof (updateJiraCustomField_counts env config jiraIssueKey
                (JiraFieldID fieldMapping) (first :: rest) t) as [_ Hp1].
  simpl in Hp1.
  destruct (run (updateJiraCustomField env config jiraIssueKey
                   (JiraFieldID fieldMapping) (first :: rest)) t)
    as [[[]|err] t1]; simpl in *; [lia|].
  destruct rest as [|second rest]; [simpl; lia|].
  pose proof (updateJiraCustomField_counts env config jiraIssueKey
                (JiraFieldID fieldMapping) [first]
                (t1 ++ [Logged (LogMultipleFailed first)])) as [_ Hp2].
  simpl in Hp2. rewrite count_app in Hp2.
  change (count is_put [Logged (LogMultipleFailed first)]) with 0 in Hp2.
  lia.
Qed.

(** X14: within one field, the lookups come first and the writes after
    them: what [processComponentField] appends to the trace is a first part
    without any write request or entry into the updater, followed by a
    second part without any lookup and with at most two write requests. *)
Theorem processComponentField_lookups_then_writes
    (customFieldEntry : CustomFieldEntry) (jiraIssueKey : string)
    (fieldMapping : FieldMapping) (t : list Event) :
  exists lookups writes,
    snd (run (processComponentField env config customFieldEntry jiraIssueKey
                fieldMapping) t) = t ++ lookups ++ writes
    /\ count is_put lookups = 0
    /\ count is_update_attempt lookups = 0
    /\ count is_get lookups <= length (CustomFieldEntry_Values customFieldEntry)
    /\ count is_get writes = 0
    /\ count is_put writes <= 2.
Proof.
  unfold processComponentField. rewrite run_bind.
  destruct (processComponentField_resolve_appends env config
              (CustomFieldEntry_Values customFieldEntry) [] t)
    as (lookups & E1 & H1).
  pose proof (proj1 (processComponentField_resolve_counts env config
                       (CustomFieldEntry_Values customFieldEntry) [] t)) as Hg.
  simpl in Hg.
  destruct (run (processComponentField_resolve env config _ []) t)
    as [jiraValues t1]. simpl in E1, Hg. subst t1.
  destruct (processComponentField_update_no_get jiraIssueKey fieldMapping
              jiraValues (t ++ lookups)) as (writes & E2 & H2).
  pose proof (processComponentField_update_puts jiraIssueKey fieldMapping
                jiraValues (t ++ lookups)) as Hp.
  rewrite E2 in Hp. rewrite E2.
  exists lookups, writes. rewrite <- app_assoc. split; [reflexivity|].
  rewrite !count_app in Hp. rewrite count_app in Hg.
  assert (forall (p : Event -> bool) (Q : Event -> Prop) l,
            (forall e, Q e -> p e = false) -> Forall Q l -> count p l = 0)
    as Hzero.
  { intros p Q l HQ HF. unfold count.
    induction HF as [|e l He _ IH]; simpl; [reflexivity|].
    rewrite (HQ e He). exact IH. }
  assert (length (catalog_backed (CustomFieldEntry_Values customFieldEntry))
          <= length (CustomFieldEntry_Values customFieldEntry)) as Hlen.
  { unfold catalog_backed. apply List.filter_length_le. }
  repeat split.
  - apply (Hzero _ _ _ (fun e H => proj1 H) H1).
  - apply (Hzero _ _ _ (fun e H => proj2 H) H1).
  - lia.
  - apply (Hzero _ _ _ (fun e H => H) H2).
  - lia.
Qed.

End FieldOrder.

(** ** The shape of an extracted id *)

(** X15: whatever key it is given, an id the extractor returns is not
    empty, is the end of the key, and is made of decimal digits, but for a
    plus sign in front when the key itself is a signed number. *)
Theorem extractJiraObjectID_shape (objectKey objectID : string) :
  extractJiraObjectID objectKey = Ok objectID ->
  objectID <> EmptyString
  /\ exists before,
       objectKey = before +:+ objectID
       /\ (Bytes.digits1 objectID = true
           \/ (before = EmptyString
               /\ exists body,
                    objectID = "+" +:+ body /\ Bytes.digits1 body = true)).
Proof.
  unfold extractJiraObjectID.
  case_bool_decide as Hne; [discriminate|].
  destruct (regexp.hyphen_digits_end objectKey) as [digits|] eqn:Hre.
  - intros [= <-]. apply hyphen_digits_end_Some in Hre as (p & Hs & Hd).
    split; [intros ->; discriminate Hd|].
    exists (p +:+ "-"). split; [|left; exact Hd].
    rewrite Hs. clear. induction p as [|c p IH]; [reflexivity|].
    change (String c (p +:+ "-" +:+ digits) = String c ((p +:+ "-") +:+ digits)).
    rewrite IH. reflexivity.
  - destruct (strconv.Atoi objectKey) eqn:Hatoi; [|discriminate].
    intros [= <-]. split; [exact Hne|].
    exists EmptyString. split; [reflexivity|].
    apply hyphen_digits_end_None in Hre.
    destruct (Atoi_int_text objectKey Hre) as (body & Hd & [->| ->] & _);
      [rewrite Hatoi; reflexivity | left; exact Hd |].
    right. split; [reflexivity|]. exists body. auto.
Qed.

Lemma extractJiraObjectID_shape_witness :
  extractJiraObjectID "SUP-2024-10" = Ok "10"
  /\ "10" <> EmptyString
  /\ exists before,
       "SUP-2024-10" = before +:+ "10"
       /\ (Bytes.digits1 "10" = true
           \/ (before = EmptyString
               /\ exists body,
                    "10" = "+" +:+ body /\ Bytes.digits1 body = true)).
Proof.
  split; [reflexivity|].
  apply (extractJiraObjectID_shape "SUP-2024-10" "10"). reflexivity.
Defined.

(** ** What the handler does not read *)

(** X16: the handler reads neither the webhook secret nor the port of the
    configuration: under two configurations that agree on the nine other
    settings, the same request in the same state gets the same answer and
    leaves the same trace; no signature is verified. *)
Theorem webhookHandler_ignores_secret_and_port (env : Env)
    (config1 config2 : Config) (r : WebhookRequest) (t : list Event) :
  JiraBaseURL config1 = JiraBaseURL config2 ->
  JiraUsername config1 = JiraUsername config2 ->
  JiraAPIToken config1 = JiraAPIToken config2 ->
  IncidentAPIToken config1 = IncidentAPIToken config2 ->
  JiraWorkspaceID config1 = JiraWorkspaceID config2 ->
  ImpactedComponentFieldName config1 = ImpactedComponentFieldName config2 ->
  ImpactedComponentJiraFieldID config1 = ImpactedComponentJiraFieldID config2 ->
  ResponsibleComponentFieldName config1 = ResponsibleComponentFieldName config2 ->
  ResponsibleComponentJiraFieldID config1
  = ResponsibleComponentJiraFieldID config2 ->
  run (webhookHandler env config1 r) t = run (webhookHandler env config2 r) t.
Proof.
  destruct config1 as [b1 u1 a1 i1 s1 p1 w1 in1 ii1 rn1 ri1].
  destruct config2 as [b2 u2 a2 i2 s2 p2 w2 in2 ii2 rn2 ri2].
  simpl. intros -> -> -> -> -> -> -> -> ->.
  change {| JiraBaseURL := b2; JiraUsername := u2; JiraAPIToken := a2;
            IncidentAPIToken := i2; WebhookSecret := s1; Port := p1;
            JiraWorkspaceID := w2; ImpactedComponentFieldName := in2;
            ImpactedComponentJiraFieldID := ii2;
            ResponsibleComponentFieldName := rn2;
            ResponsibleComponentJiraFieldID := ri2 |}
    with (with_secret_and_port
            {| JiraBaseURL := b2; JiraUsername := u2; JiraAPIToken := a2;
               IncidentAPIToken := i2; WebhookSecret := s2; Port := p2;
               JiraWorkspaceID := w2; ImpactedComponentFieldName := in2;
               ImpactedComponentJiraFieldID := ii2;
               ResponsibleComponentFieldName := rn2;
               ResponsibleComponentJiraFieldID := ri2 |} s1 p1).
  reflexivity.
Qed.

Lemma webhookHandler_ignores_secret_and_port_witness :
  run (webhookHandler Sample.env
         (with_secret_and_port Sample.config "s3cret" "8080")
         (Sample.post "two-fields")) []
  = run (webhookHandler Sample.env Sample.config (Sample.post "two-fields")) [].
Proof.
  apply (webhookHandler_ignores_secret_and_port Sample.env
           (with_secret_and_port Sample.config "s3cret" "8080") Sample.config
           (Sample.post "two-fields") []); reflexivity.
Defined.

(** ** The configuration a server runs with *)

(** X17: a configuration [main] serves with has none of its seven required
    settings empty, nor its port, nor its two incident field names; so a
    custom-field entry without a name is never taken for a mapped one. *)
Theorem main_config_complete (environ : gmap string string) (config : Config) :
  Startup.main environ = Ok config ->
  (JiraAPIToken config <> EmptyString
   /\ IncidentAPIToken config <> EmptyString
   /\ JiraBaseURL config <> EmptyString
   /\ JiraUsername config <> EmptyString
   /\ JiraWorkspaceID config <> EmptyString
   /\ ImpactedComponentJiraFieldID config <> EmptyString
   /\ ResponsibleComponentJiraFieldID config <> EmptyString)
  /\ (Port config <> EmptyString
      /\ ImpactedComponentFieldName config <> EmptyString
      /\ ResponsibleComponentFieldName config <> EmptyString)
  /\ (forall fieldEntry,
        CustomField_Name (CustomFieldEntry_CustomField fieldEntry) = EmptyString ->
        unmapped config fieldEntry).
Proof.
  unfold Startup.main, Startup.main_checks.
  repeat case_bool_decide; try discriminate.
  intros [= <-].
  assert (Port (Startup.getConfig environ) <> EmptyString
          /\ ImpactedComponentFieldName (Startup.getConfig environ) <> EmptyString
          /\ ResponsibleComponentFieldName (Startup.getConfig environ)
             <> EmptyString) as Hd.
  { simpl. repeat split; intros He; apply getEnv_empty_default in He;
      discriminate He. }
  split; [repeat split; assumption|]. split; [exact Hd|].
  intros fieldEntry Hname. unfold unmapped. rewrite Hname.
  destruct Hd as (_ & Hi & Hr). split; congruence.
Qed.

Lemma main_config_complete_witness :
  Startup.main Startup.example_environ
  = Ok (Startup.getConfig Startup.example_environ)
  /\ (JiraAPIToken (Startup.getConfig Startup.example_environ) <> EmptyString
      /\ IncidentAPIToken (Startup.getConfig Startup.example_environ)
         <> EmptyString
      /\ JiraBaseURL (Startup.getConfig Startup.example_environ) <> EmptyString
      /\ JiraUsername (Startup.getConfig Startup.example_environ) <> EmptyString
      /\ JiraWorkspaceID (Startup.getConfig Startup.example_environ)
         <> EmptyString
      /\ ImpactedComponentJiraFieldID (Startup.getConfig Startup.example_environ)
         <> EmptyString
      /\ ResponsibleComponentJiraFieldID
           (Startup.getConfig Startup.example_environ) <> EmptyString).
Proof.
  split; [vm_compute; reflexivity|].
  apply (main_config_complete Startup.example_environ
           (Startup.getConfig Startup.example_environ)).
  vm_compute. reflexivity.
Defined.

(** ** The errors a run can end with *)

Section Errors.

Context (env : Env) (config : Config) (jiraIssueKey : string).

Lemma failed_write_earlier (t t' : list Event) (err : error)
    (t_end : list Event) :
  t `prefix_of` t' ->
  failed_write env config jiraIssueKey t' err t_end ->
  failed_write env config jiraIssueKey t err t_end.
Proof.
  intros Hpre (fieldID & values & t0 & Hfid & Hne & Hstart & Hrun).
  exists fieldID, values, t0. repeat split; try assumption.
  etrans; eassumption.
Qed.

Lemma updateJiraCustomField_prefix (fieldID : string)
    (values : list JiraComponentValue) (t : list Event) :
  t `prefix_of`
    snd (run (updateJiraCustomField env config jiraIssueKey fieldID values) t).
Proof.
  destruct (updateJiraCustomField_trace env config jiraIssueKey fieldID values t)
    as (added & -> & _).
  eexists. reflexivity.
Qed.

Lemma updateJiraCustomField_error_kind (fieldID : string)
    (values : list JiraComponentValue) (t : list Event) (err : error) :
  fst (run (updateJiraCustomField env config jiraIssueKey fieldID values) t)
  = Err err ->
  is_write_error err = true.
Proof.
  unfold updateJiraCustomField. run_step.
  destruct (NewRequest_error env "PUT" _) as [e|];
    [run_step; simpl; intros [= <-]; reflexivity|].
  run_step. destruct (client_Do env _ _) as [resp|e].
  - destruct (bool_decide (StatusCode resp ≠ 204%Z) && _ && _); run_step; simpl;
      [intros [= <-]; reflexivity | discriminate].
  - run_step. simpl. intros [= <-]. reflexivity.
Qed.

Lemma failed_write_kind (t : list Event) (err : error) (t_end : list Event) :
  failed_write env config jiraIssueKey t err t_end -> is_write_error err = true.
Proof.
  intros (fieldID & values & t0 & _ & _ & _ & Hrun).
  apply (updateJiraCustomField_error_kind fieldID values t0).
  rewrite Hrun. reflexivity.
Qed.

Lemma processComponentField_update_failed (fieldMapping : FieldMapping)
    (jiraValues : list JiraComponentValue) (t : list Event) (err : error)
    (t' : list Event) :
  JiraFieldID fieldMapping = ImpactedComponentJiraFieldID config
  \/ JiraFieldID fieldMapping = ResponsibleComponentJiraFieldID config ->
  run (processComponentField_update env config jiraIssueKey fieldMapping
         jiraValues) t = (Err err, t') ->
  failed_write env config jiraIssueKey t err t'.
Proof.
  intros Hfid. destruct jiraValues as [|first rest]; [discriminate|].
  rewrite processComponentField_update_cases.
  pose proof (updateJiraCustomField_prefix (JiraFieldID fieldMapping)
                (first :: rest) t) as Hpre.
  destruct (run (updateJiraCustomField env config jiraIssueKey
                   (JiraFieldID fieldMapping) (first :: rest)) t)
    as [[[]|e1] t1] eqn:E1; simpl in *; [discriminate|].
  destruct rest as [|second rest].
  - intros [= <- <-].
    exists (JiraFieldID fieldMapping), [first], t.
    repeat split; [exact Hfid | discriminate | reflexivity | exact E1].
  - intros Hretry.
    exists (JiraFieldID fieldMapping), [first],
           (t1 ++ [Logged (LogMultipleFailed first)]).
    repeat split; [exact Hfid | discriminate | | exact Hretry].
    apply prefix_app_r. exact Hpre.
Qed.

Lemma processComponentField_failed (customFieldEntry : CustomFieldEntry)
    (fieldMapping : FieldMapping) (t : list Event) (err : error)
    (t' : list Event) :
  JiraFieldID fieldMapping = ImpactedComponentJiraFieldID config
  \/ JiraFieldID fieldMapping = ResponsibleComponentJiraFieldID config ->
  run (processComponentField env config customFieldEntry jiraIssueKey
         fieldMapping) t = (Err err, t') ->
  failed_write env config jiraIssueKey t err t'.
Proof.
  intros Hfid. unfold processComponentField. rewrite run_bind.
  pose proof (appends_prefix not_a_write _ t
                (processComponentField_resolve_appends env config
                   (CustomFieldEntry_Values customFieldEntry) [])) as Hpre.
  destruct (run (processComponentField_resolve env config _ []) t)
    as [jiraValues t1]. simpl in Hpre.
  intros Hrun. apply (failed_write_earlier t t1); [exact Hpre|].
  eapply processComponentField_update_failed; eassumption.
Qed.

#[local] Opaque processComponentField.

Lemma processFieldEntry_failed (fieldEntry : CustomFieldEntry)
    (t : list Event) (err : error) (t' : list Event) :
  run (processFieldEntry env config jiraIssueKey fieldEntry) t = (Err err, t') ->
  exists t1 m,
    failed_write env config jiraIssueKey t err t1
    /\ t' = t1 ++ [Logged m]
    /\ (m = LogFailedImpacted err \/ m = LogFailedResponsible err).
Proof.
  unfold processFieldEntry. cbv zeta. rewrite run_bind.
  rewrite getFieldMappings_impacted, getFieldMappings_responsible.
  simpl IncidentFieldName.
  case_bool_decide as Himp.
  - run_step.
    pose proof (appends_prefix _ _ (t ++ [Logged LogProcessingImpacted])
                  (processComponentField_addressed env config jiraIssueKey
                     fieldEntry
                     {| IncidentFieldName := ImpactedComponentFieldName config;
                        JiraFieldID := ImpactedComponentJiraFieldID config |}
                     (or_introl eq_refl))) as Hpre.
    destruct_component e1 t1 E1; run_step; simpl in Hpre.
    + case_bool_decide as Hresp; [|discriminate].
      run_step. destruct_component e2 t2 E2; run_step; [discriminate|].
      intros [= <- <-]. exists t2, (LogFailedResponsible e2).
      split; [|auto].
      apply (failed_write_earlier t (t1 ++ [Logged LogProcessingResponsible])).
      { apply prefix_app_r. etrans; [|exact Hpre].
        apply prefix_app_r. reflexivity. }
      eapply processComponentField_failed; [|exact E2]. right. reflexivity.
    + intros [= <- <-]. exists t1, (LogFailedImpacted e1).
      split; [|auto].
      apply (failed_write_earlier t (t ++ [Logged LogProcessingImpacted])).
      { apply prefix_app_r. reflexivity. }
      eapply processComponentField_failed; [|exact E1]. left. reflexivity.
  - run_step. case_bool_decide as Hresp; [|discriminate].
    run_step. destruct_component e2 t2 E2; run_step; [discriminate|].
    intros [= <- <-]. exists t2, (LogFailedResponsible e2).
    split; [|auto].
    apply (failed_write_earlier t (t ++ [Logged LogProcessingResponsible])).
    { apply prefix_app_r. reflexivity. }
    eapply processComponentField_failed; [|exact E2]. right. reflexivity.
Qed.

#[local] Transparent processComponentField.

Lemma processFieldEntries_failed (entries : list CustomFieldEntry)
    (t : list Event) (err : error) (t' : list Event) :
  run (processFieldEntries env config jiraIssueKey entries) t = (Err err, t') ->
  exists t1 m,
    failed_write env config jiraIssueKey t err t1
    /\ t' = t1 ++ [Logged m]
    /\ (m = LogFailedImpacted err \/ m = LogFailedResponsible err).
Proof.
  revert t. induction entries as [|fieldEntry rest IH]; intros t;
    [discriminate|].
  rewrite processFieldEntries_cons.
  pose proof (appends_prefix _ _ t
                (processFieldEntry_addressed env config jiraIssueKey fieldEntry))
    as Hpre.
  destruct (run (processFieldEntry env config jiraIssueKey fieldEntry) t)
    as [[[]|e1] t1] eqn:E1; simpl in Hpre.
  - intros Hrest. destruct (IH t1 Hrest) as (t2 & m & Hw & Ht & Hm).
    exists t2, m. split; [|auto].
    apply (failed_write_earlier t t1); assumption.
  - intros [= <- <-]. apply (processFieldEntry_failed fieldEntry). exact E1.
Qed.

End Errors.

(** X11: [processIncidentUpdate] ends in an error only for want of a linked
    issue, before anything is logged, or because a write failed: in the
    second case the error is the very error a call of
    [updateJiraCustomField] returned, a call made during this run, for the
    linked issue, one of the two configured fields and a non-empty list of
    values, and the trace ends with that call and the line that logs the
    failure.  The errors of a catalog lookup and of the extraction, the
    failure to build a lookup request among them, never end a run. *)
Theorem processIncidentUpdate_errors (env : Env) (config : Config)
    (incidentData : IncidentData) (t : list Event) (err : error)
    (t' : list Event) :
  let jiraIssueKey :=
    IssueName (Incident_ExternalIssueReference (selectIncident incidentData)) in
  run (processIncidentUpdate env config incidentData) t = (Err err, t') ->
  (err = ErrNoJiraIssue /\ jiraIssueKey = EmptyString /\ t' = t)
  \/ (exists t1 m,
        failed_write env config jiraIssueKey t err t1
        /\ t' = t1 ++ [Logged m]
        /\ (m = LogFailedImpacted err \/ m = LogFailedResponsible err)
        /\ is_write_error err = true).
Proof.
  intros jiraIssueKey. unfold processIncidentUpdate. cbv zeta.
  fold jiraIssueKey. case_bool_decide as Hkey.
  - run_step. intros [= <- <-]. left. auto.
  - run_step. intros Hrun. right.
    apply processFieldEntries_failed in Hrun as (t1 & m & Hw & Ht & Hm).
    exists t1, m. split; [|split; [exact Ht|split; [exact Hm|]]].
    + apply (failed_write_earlier env config jiraIssueKey t
               (t ++ [Logged (LogProcessingIssue jiraIssueKey)]));
        [apply prefix_app_r; reflexivity | exact Hw].
    + eapply failed_write_kind. exact Hw.
Qed.

Lemma processIncidentUpdate_errors_witness :
  run (processIncidentUpdate Sample.refusing Sample.config Sample.two_fields) []
  = (Err (ErrJiraStatus 400),
     snd (run (processIncidentUpdate Sample.refusing Sample.config
                 Sample.two_fields) []))
  /\ ((ErrJiraStatus 400 = ErrNoJiraIssue
       /\ IssueName (Incident_ExternalIssueReference
                       (selectIncident Sample.two_fields)) = EmptyString
       /\ snd (run (processIncidentUpdate Sample.refusing Sample.config
                      Sample.two_fields) []) = [])
      \/ (exists t1 m,
            failed_write Sample.refusing Sample.config
              (IssueName (Incident_ExternalIssueReference
                            (selectIncident Sample.two_fields)))
              [] (ErrJiraStatus 400) t1
            /\ snd (run (processIncidentUpdate Sample.refusing Sample.config
                           Sample.two_fields) []) = t1 ++ [Logged m]
            /\ (m = LogFailedImpacted (ErrJiraStatus 400)
                \/ m = LogFailedResponsible (ErrJiraStatus 400))
            /\ is_write_error (ErrJiraStatus 400) = true)).
Proof.
  split; [vm_compute; reflexivity|].
  apply (processIncidentUpdate_errors Sample.refusing Sample.config
           Sample.two_fields [] (ErrJiraStatus 400)).
  vm_compute. reflexivity.
Defined.
